(** * log_processor: a shallow embedding of [log_processor.py]

    The development has five parts.  Part I models the pieces of the
    Python runtime the program relies on ([str.split], [int], [float],
    [round], [collections.Counter], text-mode line iteration, binary64
    arithmetic).  Part II transcribes [LogEntryParser.parse_line],
    [LogProcessor.process_file], [LogProcessor.process_logs] and
    [LogProcessor.get_results].  Part III defines the notions the
    specification speaks of, a few sample inputs, and the rest of the
    program: [ArgParser.parse_args], [OutputWriter.write] and [main].
    Part IV states and proves the properties of the specification against
    the transcription.  Part V proves further properties of the code.

    Conventions.
    - A Python [str] is a [string]; a character is a code point in
      [0 .. 255].  Text outside that range (in particular the replacement
      character produced by [errors='replace']) is outside the model.
    - A Python [int] is a [Z].
    - A Python [float] is a [spec_float] at precision 53 and maximal
      exponent 1024, i.e. IEEE 754 binary64 with a single NaN.
    - An exception is a constructor of [exn]; a computation that may raise
      returns an [outcome].
    - The methods of [LogProcessor] mutate [self]; they are written in a
      state-and-exception monad over the record [LogProcessor], so that the
      state left behind by a raising call is part of the model.
    - [print] is not modelled: nothing the program computes depends on what
      it wrote to standard output. *)

From Stdlib Require Import ZArith List String Ascii Bool Lia.
From Stdlib Require Import Floats.SpecFloat.
Import ListNotations.

Local Open Scope Z_scope.
Local Open Scope string_scope.

(* ===================================================================== *)
(** * Part I.  The Python runtime                                         *)
(* ===================================================================== *)

(** ** Exceptions and outcomes *)

Inductive exn : Type :=
| ValueError
| TypeError
| IndexError
| ZeroDivisionError
| OverflowError
| FileNotFoundError
| NoEntriesFoundError
| NoTimeElapsedError.

Inductive outcome (A : Type) : Type :=
| Ret (a : A)
| Raise (e : exn).

Arguments Ret {A} a.
Arguments Raise {A} e.

Definition obind {A B : Type} (o : outcome A) (k : A -> outcome B) : outcome B :=
  match o with
  | Ret a => k a
  | Raise e => Raise e
  end.

Definition of_option {A : Type} (e : exn) (o : option A) : outcome A :=
  match o with
  | Some a => Ret a
  | None => Raise e
  end.

Declare Scope outcome_scope.
Delimit Scope outcome_scope with outcome.

Notation "x <- c ;; k" := (obind c (fun x => k))
  (at level 61, c at next level, right associativity) : outcome_scope.

(** ** Characters and strings *)

Module Py.

Definition LF : ascii := "010"%char.
Definition CR : ascii := "013"%char.
Definition TAB : ascii := "009"%char.
Definition SPACE : ascii := " "%char.
Definition NUL : ascii := "000"%char.

Definition code (c : ascii) : N := N_of_ascii c.

(** [Py_ISSPACE]: the six ASCII white-space characters. *)
Definition is_ascii_space (c : ascii) : bool :=
  ((9 <=? code c) && (code c <=? 13) || (code c =? 32))%N.

(** [Py_UNICODE_ISSPACE] on the code points of the model. *)
Definition is_unicode_space (c : ascii) : bool :=
  (is_ascii_space c
   || ((28 <=? code c) && (code c <=? 31))
   || (code c =? 133) || (code c =? 160))%N.

Definition is_digit (c : ascii) : bool :=
  ((48 <=? code c) && (code c <=? 57))%N.

Definition digit_value (c : ascii) : Z := Z.of_N (code c) - 48.

Definition lower (c : ascii) : ascii :=
  if ((65 <=? code c) && (code c <=? 90))%N
  then ascii_of_N (code c + 32) else c.

Definition nonempty (s : string) : bool :=
  match s with
  | EmptyString => false
  | String _ _ => true
  end.

(** [s.split(sep)] for a separator of length one: every occurrence of the
    separator cuts, so adjacent separators produce empty strings. *)
Fixpoint split (sep : ascii) (s : string) : list string :=
  match s with
  | EmptyString => [EmptyString]
  | String c s' =>
      if Ascii.eqb c sep then EmptyString :: split sep s'
      else match split sep s' with
           | t :: ts => String c t :: ts
           | [] => [String c EmptyString]
           end
  end.

(** Universal-newlines translation of a text file opened with
    [newline=None]: ["\r\n"] and a lone ["\r"] both read as ["\n"]. *)
Fixpoint universal_newlines (s : string) : string :=
  match s with
  | EmptyString => EmptyString
  | String c s' =>
      if Ascii.eqb c CR then
        String LF
          match s' with
          | String c' s'' =>
              if Ascii.eqb c' LF then universal_newlines s''
              else universal_newlines s'
          | EmptyString => EmptyString
          end
      else String c (universal_newlines s')
  end.

(** The lines a file object yields: each keeps its terminating ["\n"]; a
    last line without terminator is yielded as it is. *)
Fixpoint keepends (cur : string) (s : string) : list string :=
  match s with
  | EmptyString => if nonempty cur then [cur] else []
  | String c s' =>
      if Ascii.eqb c LF then (cur ++ String LF EmptyString) :: keepends EmptyString s'
      else keepends (cur ++ String c EmptyString) s'
  end.

Definition readlines (content : string) : list string :=
  keepends EmptyString (universal_newlines content).

(** ** Numeric literals *)

Fixpoint all_ascii (s : string) : bool :=
  match s with
  | EmptyString => true
  | String c s' => (code c <? 128)%N && all_ascii s'
  end.

(** [_PyUnicode_TransformDecimalAndSpaceToASCII]: a pure-ASCII string is
    returned as it is; otherwise white space becomes a space, and the first
    other character at or above 127 becomes ['?'] and ends the string (no
    code point of the model above 127 is a decimal digit). *)
Fixpoint transform_rec (s : string) : string :=
  match s with
  | EmptyString => EmptyString
  | String c s' =>
      if (code c <? 127)%N then String c (transform_rec s')
      else if is_unicode_space c then String SPACE (transform_rec s')
      else String "?"%char EmptyString
  end.

Definition transform_decimal_and_space (s : string) : string :=
  if all_ascii s then s else transform_rec s.

Fixpoint lstrip (s : string) : string :=
  match s with
  | EmptyString => EmptyString
  | String c s' => if is_ascii_space c then lstrip s' else s
  end.

Fixpoint all_space (s : string) : bool :=
  match s with
  | EmptyString => true
  | String c s' => is_ascii_space c && all_space s'
  end.

(** Removes the trailing run of ASCII white space. *)
Fixpoint rstrip (s : string) : string :=
  match s with
  | EmptyString => EmptyString
  | String c s' => if all_space s then EmptyString else String c (rstrip s')
  end.

(** A maximal run of decimal digits in which single underscores may
    separate digits: returns the digits read, most significant first, and
    the rest of the input, which starts at the first character that does
    not continue the run. *)
Fixpoint digit_run (after_digit : bool) (s : string) : list Z * string :=
  match s with
  | EmptyString => ([], s)
  | String c s' =>
      if is_digit c then
        let '(ds, rest) := digit_run true s' in (digit_value c :: ds, rest)
      else if Ascii.eqb c "_"%char && after_digit then
        match s' with
        | String c' _ =>
            if is_digit c' then digit_run false s' else ([], s)
        | EmptyString => ([], s)
        end
      else ([], s)
  end.

Definition number_of_digits (ds : list Z) : Z :=
  fold_left (fun acc d => 10 * acc + d) ds 0.

Definition sign_of (s : string) : bool * string :=
  match s with
  | String c s' =>
      if Ascii.eqb c "-"%char then (true, s')
      else if Ascii.eqb c "+"%char then (false, s')
      else (false, s)
  | EmptyString => (false, s)
  end.

(** The default limit of [sys.get_int_max_str_digits()]. *)
Definition int_max_str_digits : nat := 4300.

(** [int(s)] for a string argument, in base ten: optional white space, an
    optional sign, a digit run, optional white space.  [None] stands for
    [ValueError]. *)
Definition int (s : string) : option Z :=
  let s := lstrip (transform_decimal_and_space s) in
  let '(neg, s) := sign_of s in
  let '(ds, rest) := digit_run false s in
  match ds with
  | [] => None
  | _ :: _ =>
      if negb (all_space rest) then None
      else if Nat.ltb int_max_str_digits (List.length ds) then None
      else Some (if neg then - number_of_digits ds else number_of_digits ds)
  end.

(** ** Binary64 *)

Definition binary64 : Type := spec_float.

Definition prec : Z := 53.
Definition emax : Z := 1024.

(** The binary64 nearest to [num / den], ties to even, for positive [num]
    and [den]; overflow gives an infinity, underflow a zero. *)
Definition float_of_ratio (neg : bool) (num den : Z) : binary64 :=
  let '(mz, ez, lz) := SFdiv_core_binary prec emax num 0 den 0 in
  binary_round_aux prec emax neg mz ez lz.

(** The binary64 nearest to [d * 10 ^ e], for [0 <= d]: what
    [_Py_dg_strtod] returns for this decimal. *)
Definition float_of_decimal (neg : bool) (d e : Z) : binary64 :=
  if (d =? 0)%Z then S754_zero neg
  else if (0 <=? e)%Z then float_of_ratio neg (d * 10 ^ e) 1
  else float_of_ratio neg d (10 ^ (- e)).

(** [_Py_string_to_number_with_underscores]: an underscore must stand
    between two digits; the underscores are then dropped. *)
Fixpoint strip_underscores (prev : ascii) (s : string) : option string :=
  match s with
  | EmptyString => if Ascii.eqb prev "_"%char then None else Some EmptyString
  | String c s' =>
      if Ascii.eqb c "_"%char then
        if is_digit prev then strip_underscores c s' else None
      else if Ascii.eqb prev "_"%char && negb (is_digit c) then None
      else option_map (String c) (strip_underscores c s')
  end.

(** A maximal run of decimal digits. *)
Fixpoint digits (s : string) : list Z * string :=
  match s with
  | EmptyString => ([], s)
  | String c s' =>
      if is_digit c then
        let '(ds, rest) := digits s' in (digit_value c :: ds, rest)
      else ([], s)
  end.

(** The optional exponent of a decimal literal; an ['e'] that no digit
    follows is not part of the number. *)
Definition exponent_of (s : string) : Z * string :=
  match s with
  | String c s' =>
      if Ascii.eqb (lower c) "e"%char then
        let '(neg, s'') := sign_of s' in
        let '(ds, rest) := digits s'' in
        match ds with
        | [] => (0, s)
        | _ :: _ =>
            ((if neg then - number_of_digits ds else number_of_digits ds), rest)
        end
      else (0, s)
  | EmptyString => (0, s)
  end.

(** [_Py_dg_strtod]: sign, digits, optional fraction, optional exponent,
    with at least one digit before the exponent.  Returns the value and the
    unread rest, or [None] when nothing was read. *)
Definition strtod (s : string) : option (binary64 * string) :=
  let '(neg, s1) := sign_of s in
  let '(di, s2) := digits s1 in
  let '(df, s3) :=
    match s2 with
    | String c s' => if Ascii.eqb c "."%char then digits s' else ([], s2)
    | EmptyString => ([], s2)
    end in
  match (di ++ df)%list with
  | [] => None
  | ds =>
      let '(ex, s4) := exponent_of s3 in
      Some (float_of_decimal neg (number_of_digits ds)
              (ex - Z.of_nat (List.length df)), s4)
  end.

(** [case_insensitive_match]: [pat] is in lower case. *)
Fixpoint case_insensitive_match (pat s : string) : option string :=
  match pat, s with
  | EmptyString, _ => Some s
  | String p pat', String c s' =>
      if Ascii.eqb (lower c) p then case_insensitive_match pat' s' else None
  | String _ _, EmptyString => None
  end.

(** [_Py_parse_inf_or_nan]. *)
Definition parse_inf_or_nan (s : string) : option (binary64 * string) :=
  let '(neg, s1) := sign_of s in
  match case_insensitive_match "inf" s1 with
  | Some s2 =>
      match case_insensitive_match "inity" s2 with
      | Some s3 => Some (S754_infinity neg, s3)
      | None => Some (S754_infinity neg, s2)
      end
  | None =>
      match case_insensitive_match "nan" s1 with
      | Some s2 => Some (S754_nan, s2)
      | None => None
      end
  end.

(** [float(s)] for a string argument.  [None] stands for [ValueError]. *)
Definition float (s : string) : option binary64 :=
  match strip_underscores NUL (transform_decimal_and_space s) with
  | None => None
  | Some s =>
      let s := rstrip (lstrip s) in
      let parsed :=
        match strtod s with
        | Some r => Some r
        | None => parse_inf_or_nan s
        end in
      match parsed with
      | Some (x, EmptyString) => Some x
      | _ => None
      end
  end.

(** ** Float arithmetic *)

Definition zero : binary64 := S754_zero false.

(** [a < b] and [a > b] on two floats. *)
Definition flt (a b : binary64) : bool := SFltb a b.
Definition fgt (a b : binary64) : bool := SFltb b a.

(** [not x] for a float: [x == 0.0]. *)
Definition fnot (x : binary64) : bool := SFeqb x zero.

Definition fsub (a b : binary64) : binary64 := SFsub prec emax a b.

(** [PyLong_AsDouble]. *)
Definition float_of_int (n : Z) : outcome binary64 :=
  match binary_normalize prec emax n 0 false with
  | S754_infinity _ => Raise OverflowError
  | x => Ret x
  end.

(** [n / d] for an int [n] and a float [d]: [float.__rtruediv__]. *)
Definition truediv (n : Z) (d : binary64) : outcome binary64 :=
  (a <- float_of_int n ;;
   if fnot d then Raise ZeroDivisionError
   else Ret (SFdiv prec emax a d))%outcome.

Definition round_half_even (num den : Z) : Z :=
  let q := num / den in
  match (2 * (num mod den) ?= den)%Z with
  | Lt => q
  | Gt => q + 1
  | Eq => if Z.even q then q else q + 1
  end.

(** [round(x, ndigits)] on a float: the exact value of [x] is rounded to
    a decimal with [ndigits] fractional digits, ties to even, and that
    decimal is read back ([double_round]). *)
Definition round (x : binary64) (ndigits : Z) : outcome binary64 :=
  match x with
  | S754_finite s m e =>
      if (323 <? ndigits)%Z then Ret x
      else if (ndigits <? -308)%Z then Ret (S754_zero s)
      else
        let num := Zpos m * 2 ^ Z.max e 0 * 10 ^ Z.max ndigits 0 in
        let den := 2 ^ Z.max (- e) 0 * 10 ^ Z.max (- ndigits) 0 in
        match float_of_decimal s (round_half_even num den) (- ndigits) with
        | S754_infinity _ => Raise OverflowError
        | r => Ret r
        end
  | _ => Ret x
  end.

(** ** [collections.Counter]

    A counter is a [dict]: its items are kept in the order in which their
    keys were first inserted. *)

Definition Counter : Type := list (string * Z).

(** [c[k]], with [Counter.__missing__] giving 0. *)
Fixpoint counter_get (c : Counter) (k : string) : Z :=
  match c with
  | [] => 0
  | (k', v) :: c' => if String.eqb k' k then v else counter_get c' k
  end.

(** [c[k] = v]: in place for a present key, appended for a new one. *)
Fixpoint counter_set (c : Counter) (k : string) (v : Z) : Counter :=
  match c with
  | [] => [(k, v)]
  | (k', v') :: c' =>
      if String.eqb k' k then (k, v) :: c'
      else (k', v') :: counter_set c' k v
  end.

(** [c[k] += 1]. *)
Definition counter_incr (c : Counter) (k : string) : Counter :=
  counter_set c k (counter_get c k + 1).

(** [c.update(other)] for a mapping [other]. *)
Definition counter_update (c other : Counter) : Counter :=
  match c with
  | [] => other
  | _ :: _ =>
      fold_left
        (fun acc item =>
           counter_set acc (fst item) (snd item + counter_get acc (fst item)))
        other c
  end.

(** [sorted(items, key=itemgetter(1), reverse=True)]: descending counts,
    items of equal count in their original order. *)
Fixpoint insert_desc (x : string * Z) (l : list (string * Z)) : list (string * Z) :=
  match l with
  | [] => [x]
  | y :: l' => if (snd x <? snd y)%Z then y :: insert_desc x l' else x :: l
  end.

Definition sorted_desc (l : list (string * Z)) : list (string * Z) :=
  fold_right insert_desc [] l.

(** [c.most_common()]. *)
Definition most_common (c : Counter) : list (string * Z) := sorted_desc c.

(** [max(items, key=itemgetter(1))]: the first item of greatest count. *)
Definition max_by_count (l : list (string * Z)) : option (string * Z) :=
  fold_left
    (fun best x =>
       match best with
       | None => Some x
       | Some b => if (snd b <? snd x)%Z then Some x else best
       end)
    l None.

(** [c.most_common(1)], which [heapq.nlargest] computes with [max]. *)
Definition most_common_1 (c : Counter) : list (string * Z) :=
  match max_by_count c with
  | Some x => [x]
  | None => []
  end.

(** [l[0]] and [l[-1]]. *)
Definition index_first {A : Type} (l : list A) : outcome A :=
  of_option IndexError (hd_error l).

Definition index_last {A : Type} (l : list A) : outcome A :=
  of_option IndexError (hd_error (rev l)).

End Py.

(* ===================================================================== *)
(** * Part II.  The program                                               *)
(* ===================================================================== *)

(** ** Command-line arguments

    The [argparse.Namespace] the program reads: the input paths and the
    four metric flags.  [output] and [format] only concern the writer. *)

Record Args : Type := {
  input : list string;
  mfip : bool;
  lfip : bool;
  eps : bool;
  bytes : bool
}.

(** ** class LogEntry *)

Record LogEntry : Type := {
  timestamp : Py.binary64;
  response_header_size : Z;
  client_ip : string;
  http_response_code : string;
  response_size : Z;
  http_request_method : string;
  url : string;
  username : string;
  access_type : string;
  response_type : string
}.

(** ** class LogEntryParser *)

(** [fields = [value for value in line.split(' ') if value]]. *)
Definition fields_of (line : string) : list string :=
  filter Py.nonempty (Py.split " "%char line).

(** [LogEntryParser.parse_line].  [Ret None] is the bare [return] taken
    when the number of fields is not 10; a failing [float] or [int] raises
    [ValueError], which nothing in the program catches. *)
Definition parse_line (line : string) : outcome (option LogEntry) :=
  let fields := fields_of line in
  let field (i : nat) : string := nth i fields EmptyString in
  if negb (Nat.eqb (List.length fields) 10) then Ret None
  else
    (ts <- of_option ValueError (Py.float (field 0%nat)) ;;
     rhs <- of_option ValueError (Py.int (field 1%nat)) ;;
     rs <- of_option ValueError (Py.int (field 4%nat)) ;;
     Ret (Some {| timestamp := ts;
                  response_header_size := rhs;
                  client_ip := field 2%nat;
                  http_response_code := field 3%nat;
                  response_size := rs;
                  http_request_method := field 5%nat;
                  url := field 6%nat;
                  username := field 7%nat;
                  access_type := field 8%nat;
                  response_type := field 9%nat |}))%outcome.

(** ** class LogProcessor *)

Record LogProcessor : Type := {
  args : Args;
  ip_counter : Py.Counter;
  earliest_timestamp : option Py.binary64;
  latest_timestamp : option Py.binary64;
  entries_count : Z;
  total_bytes : Z
}.

(** [LogProcessor.__init__]. *)
Definition init (a : Args) : LogProcessor :=
  {| args := a;
     ip_counter := [];
     earliest_timestamp := None;
     latest_timestamp := None;
     entries_count := 0;
     total_bytes := 0 |}.

Definition set_ip_counter (v : Py.Counter) (s : LogProcessor) : LogProcessor :=
  {| args := args s; ip_counter := v;
     earliest_timestamp := earliest_timestamp s;
     latest_timestamp := latest_timestamp s;
     entries_count := entries_count s; total_bytes := total_bytes s |}.

Definition set_earliest_timestamp (v : option Py.binary64) (s : LogProcessor)
  : LogProcessor :=
  {| args := args s; ip_counter := ip_counter s;
     earliest_timestamp := v;
     latest_timestamp := latest_timestamp s;
     entries_count := entries_count s; total_bytes := total_bytes s |}.

Definition set_latest_timestamp (v : option Py.binary64) (s : LogProcessor)
  : LogProcessor :=
  {| args := args s; ip_counter := ip_counter s;
     earliest_timestamp := earliest_timestamp s;
     latest_timestamp := v;
     entries_count := entries_count s; total_bytes := total_bytes s |}.

Definition set_entries_count (v : Z) (s : LogProcessor) : LogProcessor :=
  {| args := args s; ip_counter := ip_counter s;
     earliest_timestamp := earliest_timestamp s;
     latest_timestamp := latest_timestamp s;
     entries_count := v; total_bytes := total_bytes s |}.

Definition set_total_bytes (v : Z) (s : LogProcessor) : LogProcessor :=
  {| args := args s; ip_counter := ip_counter s;
     earliest_timestamp := earliest_timestamp s;
     latest_timestamp := latest_timestamp s;
     entries_count := entries_count s; total_bytes := v |}.

(** *** The monad of methods: state [self], exceptions [exn] *)

Definition M (A : Type) : Type := LogProcessor -> outcome A * LogProcessor.

Definition ret {A : Type} (a : A) : M A := fun self => (Ret a, self).

Definition raise {A : Type} (e : exn) : M A := fun self => (Raise e, self).

Definition bind {A B : Type} (m : M A) (k : A -> M B) : M B :=
  fun self =>
    match m self with
    | (Ret a, self') => k a self'
    | (Raise e, self') => (Raise e, self')
    end.

Definition lift {A : Type} (o : outcome A) : M A := fun self => (o, self).

(** Reading and assigning an attribute of [self]. *)
Definition gets {A : Type} (f : LogProcessor -> A) : M A :=
  fun self => (Ret (f self), self).

Definition modify (f : LogProcessor -> LogProcessor) : M unit :=
  fun self => (Ret tt, f self).

Definition when (b : bool) (m : M unit) : M unit := if b then m else ret tt.

Declare Scope method_scope.
Delimit Scope method_scope with M.

Notation "x <- c ;; k" := (bind c (fun x => k))
  (at level 61, c at next level, right associativity) : method_scope.
Notation "c ;;; k" := (bind c (fun _ => k))
  (at level 61, right associativity) : method_scope.

(** *** process_file: the scan of one file *)

(** The local variables of [process_file]. *)
Record Local : Type := {
  local_ip_counter : Py.Counter;
  local_entries_count : Z;
  local_total_bytes : Z;
  local_earliest_timestamp : option Py.binary64;
  local_latest_timestamp : option Py.binary64
}.

Definition local_init : Local :=
  {| local_ip_counter := [];
     local_entries_count := 0;
     local_total_bytes := 0;
     local_earliest_timestamp := None;
     local_latest_timestamp := None |}.

(** [x is None or t < x] and [x is None or t > x], for a float [t]. *)
Definition none_or_lt (t : Py.binary64) (x : option Py.binary64) : bool :=
  match x with
  | None => true
  | Some x' => Py.flt t x'
  end.

Definition none_or_gt (t : Py.binary64) (x : option Py.binary64) : bool :=
  match x with
  | None => true
  | Some x' => Py.fgt t x'
  end.

(** The body of [if log_entry:]. *)
Definition count_entry (a : Args) (loc : Local) (e : LogEntry) : Local :=
  {| local_ip_counter :=
       if mfip a || lfip a
       then Py.counter_incr (local_ip_counter loc) (client_ip e)
       else local_ip_counter loc;
     local_entries_count := local_entries_count loc + 1;
     local_total_bytes :=
       if bytes a
       then local_total_bytes loc + (response_header_size e + response_size e)
       else local_total_bytes loc;
     local_earliest_timestamp :=
       if eps a && none_or_lt (timestamp e) (local_earliest_timestamp loc)
       then Some (timestamp e)
       else local_earliest_timestamp loc;
     local_latest_timestamp :=
       if eps a && none_or_gt (timestamp e) (local_latest_timestamp loc)
       then Some (timestamp e)
       else local_latest_timestamp loc |}.

(** The loop [for line in f]. *)
Fixpoint scan (a : Args) (loc : Local) (lines : list string) : outcome Local :=
  match lines with
  | [] => Ret loc
  | line :: rest =>
      (log_entry <- parse_line line ;;
       match log_entry with
       | Some e => scan a (count_entry a loc e) rest
       | None => scan a loc rest
       end)%outcome
  end.

(** [x < y] and [x > y] where either side may be [None]: Python orders
    no [None] against a float. *)
Definition lt_opt (x y : option Py.binary64) : outcome bool :=
  match x, y with
  | Some x', Some y' => Ret (Py.flt x' y')
  | _, _ => Raise TypeError
  end.

Definition gt_opt (x y : option Py.binary64) : outcome bool :=
  match x, y with
  | Some x', Some y' => Ret (Py.fgt x' y')
  | _, _ => Raise TypeError
  end.

(** [a is None or <comparison>], the comparison being evaluated only when
    [a] is set. *)
Definition is_none_or (a : option Py.binary64) (cmp : outcome bool) : M bool :=
  match a with
  | None => ret true
  | Some _ => lift cmp
  end.

(** Lines 143 to 151: the merge of the local counters into [self]. *)
Definition merge (loc : Local) : M unit :=
  (n <- gets entries_count ;;
   modify (set_entries_count (n + local_entries_count loc)) ;;;
   b <- gets total_bytes ;;
   modify (set_total_bytes (b + local_total_bytes loc)) ;;;
   c <- gets ip_counter ;;
   modify (set_ip_counter (Py.counter_update c (local_ip_counter loc))) ;;;
   a <- gets args ;;
   when (eps a)
     (e <- gets earliest_timestamp ;;
      lower <- is_none_or e (lt_opt (local_earliest_timestamp loc) e) ;;
      when lower (modify (set_earliest_timestamp (local_earliest_timestamp loc))) ;;;
      l <- gets latest_timestamp ;;
      higher <- is_none_or l (gt_opt (local_latest_timestamp loc) l) ;;
      when higher (modify (set_latest_timestamp (local_latest_timestamp loc)))))%M.

(** [LogProcessor.process_file], applied to the decoded text of the file. *)
Definition process_file (content : string) : M unit :=
  (a <- gets args ;;
   loc <- lift (scan a local_init (Py.readlines content)) ;;
   merge loc)%M.

(** *** process_logs *)

(** The file system: the decoded text of each existing path. *)
Definition FileSystem : Type := string -> option string.

Fixpoint process_paths (fs : FileSystem) (paths : list string) : M unit :=
  match paths with
  | [] => ret tt
  | path :: rest =>
      match fs path with
      | Some content => (process_file content ;;; process_paths fs rest)%M
      | None => raise FileNotFoundError
      end
  end.

(** [LogProcessor.process_logs]. *)
Definition process_logs (fs : FileSystem) : M unit :=
  (a <- gets args ;; process_paths fs (input a))%M.

(** *** get_results *)

(** The dictionary [result]: a key is present when its field is [Some];
    the value stored under ['mfip'] or ['lfip'] may be Python's [None]. *)
Record Results : Type := {
  result_mfip : option (option (string * Z));
  result_lfip : option (option (string * Z));
  result_eps : option Py.binary64;
  result_bytes : option Z
}.

Definition empty_results : Results :=
  {| result_mfip := None; result_lfip := None;
     result_eps := None; result_bytes := None |}.

Definition set_result_mfip (v : option (string * Z)) (r : Results) : Results :=
  {| result_mfip := Some v; result_lfip := result_lfip r;
     result_eps := result_eps r; result_bytes := result_bytes r |}.

Definition set_result_lfip (v : option (string * Z)) (r : Results) : Results :=
  {| result_mfip := result_mfip r; result_lfip := Some v;
     result_eps := result_eps r; result_bytes := result_bytes r |}.

Definition set_result_eps (v : Py.binary64) (r : Results) : Results :=
  {| result_mfip := result_mfip r; result_lfip := result_lfip r;
     result_eps := Some v; result_bytes := result_bytes r |}.

Definition set_result_bytes (v : Z) (r : Results) : Results :=
  {| result_mfip := result_mfip r; result_lfip := result_lfip r;
     result_eps := result_eps r; result_bytes := Some v |}.

(** [not x] for an attribute that holds [None] or a float. *)
Definition not_opt (x : option Py.binary64) : bool :=
  match x with
  | None => true
  | Some x' => Py.fnot x'
  end.

(** [x - y] for two attributes that hold [None] or a float. *)
Definition sub_opt (x y : option Py.binary64) : outcome Py.binary64 :=
  match x, y with
  | Some x', Some y' => Ret (Py.fsub x' y')
  | _, _ => Raise TypeError
  end.

(** [bool(c)] for a counter. *)
Definition counter_nonempty (c : Py.Counter) : bool :=
  match c with
  | [] => false
  | _ :: _ => true
  end.

(** [self.ip_counter.most_common(1)[0] if self.ip_counter else None]. *)
Definition mfip_value (c : Py.Counter) : outcome (option (string * Z)) :=
  if counter_nonempty c
  then (x <- Py.index_first (Py.most_common_1 c) ;; Ret (Some x))%outcome
  else Ret None.

(** [self.ip_counter.most_common()[-1] if self.ip_counter else None]. *)
Definition lfip_value (c : Py.Counter) : outcome (option (string * Z)) :=
  if counter_nonempty c
  then (x <- Py.index_last (Py.most_common c) ;; Ret (Some x))%outcome
  else Ret None.

(** The body of [if self.args.eps:]. *)
Definition eps_value : M Py.binary64 :=
  (n <- gets entries_count ;;
   if (n =? 0)%Z then raise NoEntriesFoundError
   else
     e <- gets earliest_timestamp ;;
     l <- gets latest_timestamp ;;
     if not_opt e || not_opt l then raise NoTimeElapsedError
     else
       span <- lift (sub_opt l e) ;;
       q <- lift (Py.truediv n span) ;;
       lift (Py.round q 2))%M.

(** [LogProcessor.get_results]. *)
Definition get_results : M Results :=
  (a <- gets args ;;
   result <- ret empty_results ;;
   result <- (if mfip a
              then c <- gets ip_counter ;;
                   v <- lift (mfip_value c) ;;
                   ret (set_result_mfip v result)
              else ret result) ;;
   result <- (if lfip a
              then c <- gets ip_counter ;;
                   v <- lift (lfip_value c) ;;
                   ret (set_result_lfip v result)
              else ret result) ;;
   result <- (if eps a
              then v <- eps_value ;; ret (set_result_eps v result)
              else ret result) ;;
   result <- (if bytes a
              then b <- gets total_bytes ;; ret (set_result_bytes b result)
              else ret result) ;;
   ret result)%M.

(** The core of [main]: a fresh processor, [process_logs], [get_results]. *)
Definition run (fs : FileSystem) (a : Args) : outcome Results * LogProcessor :=
  (process_logs fs ;;; get_results)%M (init a).

(* ===================================================================== *)
(** * Part III.  What the specification speaks of                         *)
(* ===================================================================== *)

(** ** Valid records *)

(** The record of a line, when [parse_line] returns one. *)
Definition record_of (line : string) : option LogEntry :=
  match parse_line line with
  | Ret (Some e) => Some e
  | _ => None
  end.

(** The valid records of a sequence of lines, in order. *)
Fixpoint records (lines : list string) : list LogEntry :=
  match lines with
  | [] => []
  | line :: rest =>
      match record_of line with
      | Some e => e :: records rest
      | None => records rest
      end
  end.

(** The valid records of all the inputs that exist, in order. *)
Fixpoint records_of_inputs (fs : FileSystem) (paths : list string) : list LogEntry :=
  match paths with
  | [] => []
  | path :: rest =>
      match fs path with
      | Some content => records (Py.readlines content) ++ records_of_inputs fs rest
      | None => records_of_inputs fs rest
      end
  end%list.

Definition bytes_of (e : LogEntry) : Z :=
  response_header_size e + response_size e.

Definition sum_bytes (es : list LogEntry) : Z :=
  fold_right (fun e acc => bytes_of e + acc) 0 es.

(** The last element of a list, as [l[-1]] reads it. *)
Fixpoint last_error {A : Type} (l : list A) : option A :=
  match l with
  | [] => None
  | [x] => Some x
  | _ :: l' => last_error l'
  end.

Module Spec.

(** The white space the specification names: spaces, tabs and line
    terminators. *)
Definition is_whitespace (c : ascii) : bool :=
  Ascii.eqb c Py.SPACE || Ascii.eqb c Py.TAB
  || Ascii.eqb c Py.LF || Ascii.eqb c Py.CR.

Definition is_space (c : ascii) : bool := Ascii.eqb c Py.SPACE.

(** Splitting on runs of separators, discarding empty tokens: [cur] is the
    token being read. *)
Fixpoint tokens_from (is_sep : ascii -> bool) (cur : string) (s : string)
  : list string :=
  match s with
  | EmptyString => if Py.nonempty cur then [cur] else []
  | String c s' =>
      if is_sep c then
        if Py.nonempty cur then cur :: tokens_from is_sep EmptyString s'
        else tokens_from is_sep EmptyString s'
      else tokens_from is_sep (cur ++ String c EmptyString) s'
  end.

Definition tokens (is_sep : ascii -> bool) (s : string) : list string :=
  tokens_from is_sep EmptyString s.

(** The item of lowest count, the first encountered among equals. *)
Definition first_least (c : Py.Counter) : option (string * Z) :=
  fold_left
    (fun best x =>
       match best with
       | None => Some x
       | Some b => if (snd x <? snd b)%Z then Some x else best
       end)
    c None.

End Spec.

(** ** Sample inputs *)

Module Sample.

Definition nl : string := String Py.LF EmptyString.
Definition tab : string := String Py.TAB EmptyString.

Definition line_a : string := "1000.0 200 10.0.0.1 200 500 GET /a user1 x y".
Definition line_b : string := "1002.0 150 10.0.0.2 200 300 GET /b user2 x y".

(** The file of the end-to-end scenario, with and without a terminator
    after its last line. *)
Definition three_lines : string :=
  line_a ++ nl ++ line_b ++ nl ++ line_a ++ nl.

Definition three_lines_unterminated : string :=
  line_a ++ nl ++ line_b ++ nl ++ line_a.

(** 1.5 as a binary64: [6755399441055744 = 3 * 2 ^ 51]. *)
Definition one_and_a_half : Py.binary64 := S754_finite false 6755399441055744 (-52).

(** 2.0 as a binary64. *)
Definition two : Py.binary64 := S754_finite false 4503599627370496 (-51).

(** A file system with the single file ["access.log"]. *)
Definition one_file (content : string) : FileSystem :=
  fun path => if String.eqb path "access.log" then Some content else None.

(** A file system with the two files ["a.log"] and ["b.log"]. *)
Definition two_files (a b : string) : FileSystem :=
  fun path =>
    if String.eqb path "a.log" then Some a
    else if String.eqb path "b.log" then Some b
    else None.

Definition args_scenario (paths : list string) : Args :=
  {| input := paths; mfip := true; lfip := false; eps := true; bytes := true |}.

Definition args_eps (paths : list string) : Args :=
  {| input := paths; mfip := false; lfip := false; eps := true; bytes := false |}.

Definition args_mfip (paths : list string) : Args :=
  {| input := paths; mfip := true; lfip := false; eps := false; bytes := false |}.

Definition args_lfip (paths : list string) : Args :=
  {| input := paths; mfip := false; lfip := true; eps := false; bytes := false |}.

Definition args_bytes (paths : list string) : Args :=
  {| input := paths; mfip := false; lfip := false; eps := false; bytes := true |}.

(** One valid line: a single timestamp. *)
Definition single_entry : string := line_a ++ nl.

(** Two valid lines whose earliest timestamp is 0.0. *)
Definition from_zero : string :=
  "0.0 200 10.0.0.1 200 500 GET /a user1 x y" ++ nl
  ++ "2.0 150 10.0.0.2 200 300 GET /b user2 x y" ++ nl.

(** Ten tokens, the first of which is no float. *)
Definition bad_timestamp : string := "abc 200 10.0.0.1 200 500 GET /a user1 x y".

(** The ten fields of [line_a] separated by tabs. *)
Definition tab_separated : string :=
  String.concat tab
    ["1000.0"; "200"; "10.0.0.1"; "200"; "500"; "GET"; "/a"; "user1"; "x"; "y"].

(** Two addresses seen once each. *)
Definition two_addresses : string :=
  "1000.0 200 10.0.0.1 200 500 GET /a user1 x y" ++ nl
  ++ "1001.0 200 10.0.0.2 200 500 GET /a user1 x y" ++ nl.

(** Negative byte counts. *)
Definition negative_sizes : string := "1000.0 -5 10.0.0.1 200 -7 GET /a user1 x y".

(** Lines that are no records: too few tokens, and an empty line. *)
Definition malformed : string :=
  "1000.0 200 10.0.0.1 200 500 GET /a user1" ++ nl ++ nl ++ "junk" ++ nl.

(** The state [self] after a run over ["access.log"]. *)
Definition state_after (content : string) (a : Args) : LogProcessor :=
  snd (process_logs (one_file content) (init a)).

End Sample.

(** ** Further notions *)

(** The number of records whose client address is [k]. *)
Definition count_ip (k : string) (es : list LogEntry) : Z :=
  Z.of_nat (List.length (filter (fun e => String.eqb (client_ip e) k) es)).

(** The sum of all the counts of a counter. *)
Definition counter_total (c : Py.Counter) : Z :=
  fold_right (fun item acc => snd item + acc) 0 c.

(** [c in s] for a character [c]. *)
Fixpoint contains (c : ascii) (s : string) : bool :=
  match s with
  | EmptyString => false
  | String d s' => Ascii.eqb d c || contains c s'
  end.

(** The seven fields of a record that are kept as strings. *)
Definition string_fields (e : LogEntry) : list string :=
  [client_ip e; http_response_code e; http_request_method e; url e;
   username e; access_type e; response_type e].

(** [s.endswith(c)] for a character [c]. *)
Fixpoint ends_with (c : ascii) (s : string) : bool :=
  match s with
  | EmptyString => false
  | String d EmptyString => Ascii.eqb d c
  | String _ s' => ends_with c s'
  end.

(** A text made of whole lines: empty, or ending in a line feed. *)
Definition whole_lines (s : string) : bool :=
  negb (Py.nonempty s) || ends_with Py.LF s.

(** [not math.isnan(x)]. *)
Definition not_nan (x : Py.binary64) : bool :=
  match x with
  | S754_nan => false
  | _ => true
  end.

(** [bound] is an extreme of the values [ts] for the comparison [before]:
    unset when there is no value, and otherwise one of the values, which
    none of them comes before. *)
Definition extreme_of (before : Py.binary64 -> Py.binary64 -> bool)
    (bound : option Py.binary64) (ts : list Py.binary64) : Prop :=
  match bound with
  | None => ts = []
  | Some m => In m ts /\ forall t, In t ts -> before t m = false
  end.

(** ** class ArgParser, class OutputWriter and main

    Three parts of the Python library are taken as given: the namespace
    that [argparse] returns for the command line, the text that
    [json.dump(data, f, indent=4)] writes, and [str(value)].  Every path is
    taken to be one that [open(path, 'w')] can create or truncate, and a
    line feed is written as it is. *)

(** The [argparse.Namespace]: what the processor reads of it, the output
    path and the format. *)
Record Namespace : Type := {
  processor_args : Args;
  output : string;
  format : string
}.

(** What [parse_args] gives: the namespace, or [sys.exit(status)]. *)
Inductive parsed : Type :=
| Parsed (ns : Namespace)
| SystemExit (status : Z).



(** A value of the dictionary [result]. *)
Inductive value : Type :=
| VNone
| VTuple (ip : string) (count : Z)
| VFloat (x : Py.binary64)
| VInt (n : Z).


Definition item {A : Type} (key : string) (to_value : A -> value) (field : option A)
  : list (string * value) :=
  match field with
  | Some v => [(key, to_value v)]
  | None => []
  end.









(* ===================================================================== *)
(** * Part IV.  Properties                                                *)
(* ===================================================================== *)

(** ** get_results reads [self] and never writes it *)

Section Frame.

Variable self : LogProcessor.

Lemma lift_frame (A : Type) (o : outcome A) : snd (lift o self) = self.
Proof. reflexivity. Qed.

Lemma eps_value_frame : snd (eps_value self) = self.
Proof.
  unfold eps_value, bind, gets, raise, lift.
  destruct (entries_count self =? 0)%Z; [reflexivity|].
  destruct (not_opt (earliest_timestamp self) || not_opt (latest_timestamp self));
    [reflexivity|].
  destruct (sub_opt (latest_timestamp self) (earliest_timestamp self)) as [span|];
    [|reflexivity].
  destruct (Py.truediv (entries_count self) span); reflexivity.
Qed.

Lemma get_results_frame : snd (get_results self) = self.
Proof.
  unfold get_results, bind, gets, ret, lift.
  destruct (mfip (args self)); [destruct (mfip_value _)|]; try reflexivity;
    (destruct (lfip (args self)); [destruct (lfip_value _)|]; try reflexivity;
     (destruct (eps (args self));
      [ pose proof eps_value_frame as F; destruct (eps_value self) as [[v|e] s'];
        simpl in F; subst s'; [|reflexivity]
      | ];
      destruct (bytes (args self)); reflexivity)).
Qed.

End Frame.

(** C10.  [get_results] leaves the accumulated state as it found it,
    whether it returns or raises; a second call gives the same result or
    the same exception; and no finalized state exists: [process_file] after
    [get_results] behaves as it would have without the call. *)
Theorem get_results_does_not_mutate (self : LogProcessor) :
  snd (get_results self) = self
  /\ get_results (snd (get_results self)) = get_results self
  /\ forall content : string,
       process_file content (snd (get_results self)) = process_file content self.
Proof.
  pose proof (get_results_frame self) as F.
  repeat split; intros; rewrite F; reflexivity.
Qed.

(** ** The end-to-end scenario *)

(** C7.  A file holding the three lines of the scenario, read with the
    metrics most-frequent address, events per second and total bytes,
    gives [("10.0.0.1", 2)], 1.5 and 1850; so does the same file without a
    terminator after its last line. *)
Theorem scenario_three_lines (fs : FileSystem) (path content : string) :
  fs path = Some content ->
  content = Sample.three_lines \/ content = Sample.three_lines_unterminated ->
  fst (run fs (Sample.args_scenario [path]))
  = Ret {| result_mfip := Some (Some ("10.0.0.1", 2));
           result_lfip := None;
           result_eps := Some Sample.one_and_a_half;
           result_bytes := Some 1850 |}.
Proof.
  intros Hfs Hc.
  unfold run, process_logs, bind, gets. simpl.
  rewrite Hfs.
  destruct Hc; subst content; vm_compute; reflexivity.
Qed.

Lemma scenario_three_lines_witness :
  fst (run (Sample.one_file Sample.three_lines) (Sample.args_scenario ["access.log"]))
  = Ret {| result_mfip := Some (Some ("10.0.0.1", 2));
           result_lfip := None;
           result_eps := Some Sample.one_and_a_half;
           result_bytes := Some 1850 |}.
Proof.
  apply (scenario_three_lines (Sample.one_file Sample.three_lines)
           "access.log" Sample.three_lines).
  - reflexivity.
  - left. reflexivity.
Defined.

Lemma one_and_a_half_literal : Py.float "1.5" = Some Sample.one_and_a_half.
Proof. vm_compute. reflexivity. Qed.

(** ** Events per second *)

(** What the [eps] branch does on a state whose two bounds are set and
    whose entry count is not zero: the test is on the two bounds being
    zero, not on their difference. *)
Lemma eps_value_bounds_set (self : LogProcessor) (e l : Py.binary64) :
  entries_count self <> 0 ->
  earliest_timestamp self = Some e ->
  latest_timestamp self = Some l ->
  fst (eps_value self)
  = if Py.fnot e || Py.fnot l then Raise NoTimeElapsedError
    else (q <- Py.truediv (entries_count self) (Py.fsub l e) ;; Py.round q 2)%outcome.
Proof.
  intros Hn He Hl. unfold eps_value, bind, gets, raise, lift.
  apply Z.eqb_neq in Hn. rewrite Hn, He, Hl. simpl.
  destruct (Py.fnot e || Py.fnot l); [reflexivity|].
  destruct (Py.truediv (entries_count self) (Py.fsub l e)); reflexivity.
Qed.

(** The difference of a finite float and itself is [0.0]. *)
Lemma fsub_diag_finite (s : bool) (m : positive) (e : Z) :
  Py.fsub (S754_finite s m e) (S754_finite s m e) = Py.zero.
Proof.
  unfold Py.fsub, SFsub. rewrite Z.sub_diag. reflexivity.
Qed.

(** Every state with a single finite non-zero timestamp and a count that
    converts to a float makes the division raise. *)
Lemma eps_value_single_timestamp (self : LogProcessor) (s : bool) (m : positive) (e : Z)
    (n : Py.binary64) :
  entries_count self <> 0 ->
  Py.float_of_int (entries_count self) = Ret n ->
  earliest_timestamp self = Some (S754_finite s m e) ->
  latest_timestamp self = Some (S754_finite s m e) ->
  fst (eps_value self) = Raise ZeroDivisionError.
Proof.
  intros Hn Hc He Hl.
  rewrite (eps_value_bounds_set self _ _ Hn He Hl), fsub_diag_finite.
  replace (Py.fnot (S754_finite s m e)) with false by (destruct s; reflexivity).
  unfold Py.truediv. rewrite Hc. reflexivity.
Qed.

(** C1.  The code at the failing inputs.  After one valid line the entry
    count is 1 and the two bounds are equal, their difference is [0.0],
    and [get_results] raises [ZeroDivisionError], not [NoTimeElapsedError].
    After two lines stamped 0.0 and 2.0 the span is 2.0, and [get_results]
    raises [NoTimeElapsedError] because the earliest bound is 0.0. *)
Theorem eps_checks_bounds_not_span :
  let one := Sample.state_after Sample.single_entry (Sample.args_eps ["access.log"]) in
  let two := Sample.state_after Sample.from_zero (Sample.args_eps ["access.log"]) in
  (entries_count one = 1
   /\ sub_opt (latest_timestamp one) (earliest_timestamp one) = Ret Py.zero
   /\ get_results one = (Raise ZeroDivisionError, one))
  /\ (entries_count two = 2
      /\ earliest_timestamp two = Some Py.zero
      /\ sub_opt (latest_timestamp two) (earliest_timestamp two) = Ret Sample.two
      /\ get_results two = (Raise NoTimeElapsedError, two)).
Proof.
  vm_compute. repeat split; reflexivity.
Qed.

(** ** The merge at the end of process_file *)

(** C3.  The code at the failing input.  With events per second
    requested, a file without valid records scans to the initial local
    state, whose two bounds are unset; merged into a state whose bounds
    are set, it raises [TypeError] at the comparison of line 148, after
    the counts were already added. *)
Theorem merge_unset_local_raises_TypeError :
  let shared := Sample.state_after Sample.single_entry (Sample.args_eps ["access.log"]) in
  scan (args shared) local_init (Py.readlines Sample.malformed) = Ret local_init
  /\ (exists t, earliest_timestamp shared = Some t)
  /\ fst (merge local_init shared) = Raise TypeError
  /\ fst (process_file Sample.malformed shared) = Raise TypeError
  /\ fst (process_file EmptyString shared) = Raise TypeError.
Proof.
  vm_compute. repeat split; try reflexivity.
  eexists. reflexivity.
Qed.

(** C6.  The code at the failing input.  With events per second
    requested, let ["a.log"] hold one valid line and ["b.log"] none.
    Processing a then b raises [TypeError]; processing b then a completes. *)
Theorem order_of_files_decides_completion :
  let fs := Sample.two_files Sample.single_entry Sample.malformed in
  fst (process_logs fs (init (Sample.args_eps ["a.log"; "b.log"]))) = Raise TypeError
  /\ fst (process_logs fs (init (Sample.args_eps ["b.log"; "a.log"]))) = Ret tt
  /\ fst (run fs (Sample.args_eps ["a.log"; "b.log"])) = Raise TypeError
  /\ entries_count (snd (process_logs fs (init (Sample.args_eps ["b.log"; "a.log"])))) = 1.
Proof.
  vm_compute. repeat split; reflexivity.
Qed.

(** ** The line parser *)

(** The three outcomes of [parse_line], each with the condition that
    selects it. *)
Lemma parse_line_cases (line : string) :
  let fields := fields_of line in
  let f0 := Py.float (nth 0 fields EmptyString) in
  let f1 := Py.int (nth 1 fields EmptyString) in
  let f4 := Py.int (nth 4 fields EmptyString) in
  (List.length fields <> 10%nat /\ parse_line line = Ret None)
  \/ (List.length fields = 10%nat
      /\ (f0 = None \/ f1 = None \/ f4 = None)
      /\ parse_line line = Raise ValueError)
  \/ (List.length fields = 10%nat
      /\ exists ts rhs rs,
           f0 = Some ts /\ f1 = Some rhs /\ f4 = Some rs
           /\ parse_line line
              = Ret (Some {| timestamp := ts;
                             response_header_size := rhs;
                             client_ip := nth 2 fields EmptyString;
                             http_response_code := nth 3 fields EmptyString;
                             response_size := rs;
                             http_request_method := nth 5 fields EmptyString;
                             url := nth 6 fields EmptyString;
                             username := nth 7 fields EmptyString;
                             access_type := nth 8 fields EmptyString;
                             response_type := nth 9 fields EmptyString |})).
Proof.
  cbv zeta. unfold parse_line.
  destruct (Nat.eqb (List.length (fields_of line)) 10) eqn:Hlen; simpl.
  - apply Nat.eqb_eq in Hlen. right.
    destruct (Py.float (nth 0 (fields_of line) EmptyString)) as [ts|]; simpl;
      [|left; auto].
    destruct (Py.int (nth 1 (fields_of line) EmptyString)) as [rhs|]; simpl;
      [|left; auto].
    destruct (Py.int (nth 4 (fields_of line) EmptyString)) as [rs|]; simpl;
      [|left; auto].
    right. split; [assumption|]. exists ts, rhs, rs. auto.
  - apply Nat.eqb_neq in Hlen. left. auto.
Qed.

(** C2, as the code has it.  [parse_line] returns no record exactly when
    the line does not split into 10 fields; it raises exactly when the
    line splits into 10 fields of which field 0 is no float or field 1 or
    field 4 is no integer, and what it raises then is [ValueError]; a
    record it returns carries the parsed values of those three fields. *)
Theorem parse_line_raises_exactly_on_bad_number (line : string) :
  let fields := fields_of line in
  let f0 := Py.float (nth 0 fields EmptyString) in
  let f1 := Py.int (nth 1 fields EmptyString) in
  let f4 := Py.int (nth 4 fields EmptyString) in
  (parse_line line = Ret None <-> List.length fields <> 10%nat)
  /\ (forall e : exn,
        parse_line line = Raise e <->
        e = ValueError /\ List.length fields = 10%nat
        /\ (f0 = None \/ f1 = None \/ f4 = None))
  /\ (forall r : LogEntry,
        parse_line line = Ret (Some r) ->
        List.length fields = 10%nat
        /\ f0 = Some (timestamp r)
        /\ f1 = Some (response_header_size r)
        /\ f4 = Some (response_size r)).
Proof.
  cbv zeta.
  destruct (parse_line_cases line)
    as [[Hlen Hp] | [[Hlen [Hbad Hp]] | [Hlen [ts [rhs [rs [H0 [H1 [H4 Hp]]]]]]]]];
    cbv zeta in *; rewrite Hp; (split; [|split]).
  - split; intros; [assumption | reflexivity].
  - intros e. split; [discriminate|]. intros [_ [H _]]. contradiction.
  - discriminate.
  - split; [discriminate|]. intros H. contradiction.
  - intros e. split.
    + intros H. inversion H. auto.
    + intros [H _]. congruence.
  - discriminate.
  - split; [discriminate|]. intros H. contradiction.
  - intros e. split; [discriminate|].
    rewrite H0, H1, H4. intros [_ [_ [H | [H | H]]]]; discriminate.
  - intros r H. inversion H. simpl. auto.
Qed.

(** C2, as stated, fails: a line of 10 fields whose first field is no
    float makes [parse_line] raise. *)
Lemma parse_line_raises_on_bad_timestamp :
  List.length (fields_of Sample.bad_timestamp) = 10%nat
  /\ Py.float (nth 0 (fields_of Sample.bad_timestamp) EmptyString) = None
  /\ parse_line Sample.bad_timestamp = Raise ValueError
  /\ ~ (forall line : string, exists r, parse_line line = Ret r).
Proof.
  assert (H : parse_line Sample.bad_timestamp = Raise ValueError)
    by (vm_compute; reflexivity).
  split; [vm_compute; reflexivity|].
  split; [vm_compute; reflexivity|].
  split; [exact H|].
  intros Hall. destruct (Hall Sample.bad_timestamp) as [r Hr].
  rewrite H in Hr. discriminate.
Qed.

(** ** Tokenization *)

Lemma append_empty_r (s : string) : s ++ EmptyString = s.
Proof. induction s as [|c s IH]; simpl; [reflexivity | rewrite IH; reflexivity]. Qed.

Lemma append_snoc (s t : string) (c : ascii) :
  (s ++ String c EmptyString) ++ t = s ++ String c t.
Proof. induction s as [|d s IH]; simpl; [reflexivity | rewrite IH; reflexivity]. Qed.

Lemma nonempty_append_l (s t : string) :
  Py.nonempty s = true -> Py.nonempty (s ++ t) = true.
Proof. destruct s; simpl; [discriminate | reflexivity]. Qed.

Lemma split_not_nil (sep : ascii) (s : string) : Py.split sep s <> [].
Proof.
  destruct s as [|c s]; simpl; [discriminate|].
  destruct (Ascii.eqb c sep); [discriminate|].
  destruct (Py.split sep s); discriminate.
Qed.

(** The run-based tokenizer, started inside a token [cur], against
    [str.split] followed by the removal of empty strings. *)
Lemma tokens_from_split (s : string) :
  forall (cur t : string) (ts : list string),
    Py.split Py.SPACE s = t :: ts ->
    Spec.tokens_from Spec.is_space cur s = filter Py.nonempty ((cur ++ t) :: ts).
Proof.
  induction s as [|c s IH]; intros cur t ts Hs.
  - injection Hs as <- <-. simpl. rewrite append_empty_r.
    destruct (Py.nonempty cur); reflexivity.
  - revert Hs. simpl. unfold Spec.is_space at 1.
    destruct (Py.split Py.SPACE s) as [|t' ts'] eqn:Hs';
      [destruct (split_not_nil _ _ Hs')|].
    destruct (Ascii.eqb c Py.SPACE) eqn:Hc; intros Hs; injection Hs as <- <-.
    + rewrite append_empty_r, (IH EmptyString t' ts' eq_refl). simpl.
      destruct (Py.nonempty cur); reflexivity.
    + rewrite (IH (cur ++ String c EmptyString) t' ts' eq_refl).
      rewrite append_snoc. reflexivity.
Qed.

(** C5, as the code has it.  The fields of a line are its maximal runs of
    characters other than the space character U+0020: the line is split
    on runs of spaces, and of spaces only, empty tokens being discarded. *)
Theorem fields_are_space_separated_runs (line : string) :
  fields_of line = Spec.tokens Spec.is_space line.
Proof.
  unfold fields_of, Spec.tokens.
  destruct (Py.split " " line) as [|t ts] eqn:Hs; [destruct (split_not_nil _ _ Hs)|].
  rewrite (tokens_from_split line EmptyString t ts Hs). reflexivity.
Qed.

(** C5, as stated, fails.  A line whose 10 fields are separated by tabs
    has 10 white-space tokens but is a single field to the parser, which
    returns no record; and the last field of a well-formed line keeps the
    line terminator. *)
Lemma fields_keep_tabs_and_newline :
  List.length (Spec.tokens Spec.is_whitespace Sample.tab_separated) = 10%nat
  /\ fields_of Sample.tab_separated = [Sample.tab_separated]
  /\ parse_line Sample.tab_separated = Ret None
  /\ nth 9 (fields_of (Sample.line_a ++ Sample.nl)) EmptyString = "y" ++ Sample.nl
  /\ nth 9 (Spec.tokens Spec.is_whitespace (Sample.line_a ++ Sample.nl)) EmptyString = "y"
  /\ ~ (forall line : string, fields_of line = Spec.tokens Spec.is_whitespace line).
Proof.
  do 5 (split; [vm_compute; reflexivity|]).
  intros Hall. specialize (Hall Sample.tab_separated).
  vm_compute in Hall. discriminate.
Qed.

(** ** Most and least frequent address *)

Lemma last_error_app_single (A : Type) (l : list A) (x : A) :
  last_error (l ++ [x])%list = Some x.
Proof.
  induction l as [|y l IH]; [reflexivity|].
  simpl. destruct (l ++ [x])%list eqn:E; [destruct l; discriminate | exact IH].
Qed.

Lemma hd_error_rev (A : Type) (l : list A) : hd_error (rev l) = last_error l.
Proof.
  destruct l as [|x l] using rev_ind; [reflexivity|].
  rewrite rev_app_distr, last_error_app_single. reflexivity.
Qed.

Lemma last_error_cons (A : Type) (x y : A) (l : list A) :
  last_error (x :: y :: l) = last_error (y :: l).
Proof. reflexivity. Qed.

Lemma insert_desc_not_nil (x : string * Z) (l : list (string * Z)) :
  Py.insert_desc x l <> [].
Proof. destruct l as [|y l]; simpl; [|destruct (snd x <? snd y)%Z]; discriminate. Qed.

(** The inserted item ends up last exactly when its count is strictly
    below every count of the list; otherwise the last item stays. *)
Lemma last_error_insert_desc (x : string * Z) (l : list (string * Z)) :
  last_error (Py.insert_desc x l)
  = if forallb (fun y => (snd x <? snd y)%Z) l then Some x else last_error l.
Proof.
  induction l as [|y l IH]; [reflexivity|].
  cbn [Py.insert_desc forallb].
  destruct (snd x <? snd y)%Z; cbn [andb].
  - destruct (Py.insert_desc x l) as [|z l'] eqn:E; [destruct (insert_desc_not_nil _ _ E)|].
    rewrite last_error_cons, IH.
    destruct (forallb _ l) eqn:F; [reflexivity|].
    destruct l; [discriminate | reflexivity].
  - reflexivity.
Qed.

Lemma In_insert_desc (x y : string * Z) (l : list (string * Z)) :
  In y (Py.insert_desc x l) <-> y = x \/ In y l.
Proof.
  induction l as [|z l IH]; simpl.
  - intuition.
  - destruct (snd x <? snd z)%Z; simpl; intuition.
Qed.

Lemma In_sorted_desc (y : string * Z) (l : list (string * Z)) :
  In y (Py.sorted_desc l) <-> In y l.
Proof.
  induction l as [|x l IH]; simpl; [tauto|].
  rewrite In_insert_desc, IH. intuition.
Qed.

Lemma forallb_false_witness (A : Type) (f : A -> bool) (l : list A) :
  forallb f l = false -> exists z, In z l /\ f z = false.
Proof.
  induction l as [|x l IH]; simpl; [discriminate|].
  destruct (f x) eqn:Fx; simpl.
  - intros H. destruct (IH H) as [z [Hz Hf]]. exists z. auto.
  - intros _. exists x. auto.
Qed.

(** The last item of the descending stable sort is the last item of
    lowest count in insertion order. *)
Lemma last_error_sorted_desc (c : list (string * Z)) :
  forall p : string * Z,
    last_error (Py.sorted_desc c) = Some p ->
    exists before after : list (string * Z),
      c = (before ++ p :: after)%list
      /\ (forall x, In x before -> snd p <= snd x)
      /\ (forall x, In x after -> snd p < snd x).
Proof.
  induction c as [|x c IH]; intros p Hp; [discriminate|].
  simpl in Hp. rewrite last_error_insert_desc in Hp.
  destruct (forallb _ (Py.sorted_desc c)) eqn:F.
  - injection Hp as <-. exists [], c. split; [reflexivity|].
    split; [intros y []|].
    intros y Hy. rewrite forallb_forall in F.
    apply Z.ltb_lt, F, In_sorted_desc, Hy.
  - destruct (IH p Hp) as [before [after [Hc [Hb Ha]]]].
    exists (x :: before), after. split; [simpl; rewrite Hc; reflexivity|].
    split; [|exact Ha].
    intros y [<- | Hy]; [|apply Hb, Hy].
    assert (Hex : exists z, In z c /\ snd z <= snd x).
    { destruct (forallb_false_witness _ _ _ F) as [z [Hz Hlt]].
      exists z. split; [apply In_sorted_desc, Hz | apply Z.ltb_ge, Hlt]. }
    destruct Hex as [z [Hz Hle]].
    rewrite Hc in Hz. apply in_app_or in Hz.
    destruct Hz as [Hz | [<- | Hz]].
    + specialize (Hb z Hz). lia.
    + exact Hle.
    + specialize (Ha z Hz). lia.
Qed.

Lemma max_by_count_some (l : list (string * Z)) :
  forall b : string * Z,
    exists y,
      fold_left
        (fun best x =>
           match best with
           | None => Some x
           | Some b => if (snd b <? snd x)%Z then Some x else best
           end)
        l (Some b) = Some y.
Proof.
  induction l as [|x l IH]; intros b; simpl; [eauto|].
  destruct (snd b <? snd x)%Z; apply IH.
Qed.

(** Neither address metric can raise: the index is taken in a list that
    is not empty. *)
Lemma mfip_value_ret (c : Py.Counter) : mfip_value c = Ret (Py.max_by_count c).
Proof.
  destruct c as [|x c]; [reflexivity|].
  unfold mfip_value, Py.most_common_1, Py.max_by_count. simpl.
  destruct (max_by_count_some c x) as [y Hy]. rewrite Hy. reflexivity.
Qed.

Lemma last_error_some (A : Type) (l : list A) :
  l <> [] -> exists p, last_error l = Some p.
Proof.
  destruct l as [|x l] using rev_ind; [congruence|].
  intros _. exists x. apply last_error_app_single.
Qed.

Lemma lfip_value_ret (c : Py.Counter) :
  lfip_value c = Ret (last_error (Py.sorted_desc c)).
Proof.
  destruct c as [|x c]; [reflexivity|].
  unfold lfip_value, Py.index_last, Py.most_common. cbn [counter_nonempty].
  rewrite hd_error_rev. cbn [Py.sorted_desc fold_right].
  destruct (last_error_some _ _ (insert_desc_not_nil x (fold_right Py.insert_desc [] c)))
    as [p Hp].
  rewrite Hp. reflexivity.
Qed.

(** [get_results] in one equation: the two address metrics always have a
    value, the byte total is read off the state, and only the [eps] branch
    can raise. *)
Lemma get_results_eq (self : LogProcessor) :
  get_results self
  = let a := args self in
    let r1 :=
      if mfip a
      then set_result_mfip (Py.max_by_count (ip_counter self)) empty_results
      else empty_results in
    let r2 :=
      if lfip a
      then set_result_lfip (last_error (Py.sorted_desc (ip_counter self))) r1
      else r1 in
    let finish r := if bytes a then set_result_bytes (total_bytes self) r else r in
    if eps a then
      match fst (eps_value self) with
      | Ret v => (Ret (finish (set_result_eps v r2)), self)
      | Raise e => (Raise e, self)
      end
    else (Ret (finish r2), self).
Proof.
  cbv zeta. unfold get_results, bind, gets, ret, lift.
  pose proof (eps_value_frame self) as F.
  destruct (mfip (args self)), (lfip (args self)), (eps (args self));
    cbv beta iota;
    rewrite ?mfip_value_ret, ?lfip_value_ret; cbv beta iota;
    try (destruct (eps_value self) as [[v|e] s']; simpl in F; subst s'; simpl);
    destruct (bytes (args self)); reflexivity.
Qed.

(** C4, as the code has it.  With the least frequent address requested,
    [get_results] returns whenever events per second is not requested, and
    whenever it returns: under ['lfip'] stands [None] for an empty counter,
    and otherwise the pair of lowest count that was inserted last among
    the pairs of that count: no pair before it has a lower count, every
    pair after it has a strictly higher one. *)
Theorem lfip_is_last_inserted_minimum (self : LogProcessor) :
  lfip (args self) = true ->
  (eps (args self) = false -> exists r, fst (get_results self) = Ret r)
  /\ forall r : Results,
       fst (get_results self) = Ret r ->
       match ip_counter self with
       | [] => result_lfip r = Some None
       | _ :: _ =>
           exists (ip : string) (n : Z) (before after : list (string * Z)),
             result_lfip r = Some (Some (ip, n))
             /\ ip_counter self = (before ++ (ip, n) :: after)%list
             /\ (forall x, In x before -> n <= snd x)
             /\ (forall x, In x after -> n < snd x)
       end.
Proof.
  intros Hl. rewrite get_results_eq. cbv zeta. rewrite Hl. split.
  - intros He. rewrite He. eexists. reflexivity.
  - intros r Hr.
    assert (Hv : result_lfip r = Some (last_error (Py.sorted_desc (ip_counter self)))).
    { destruct (eps (args self)).
      - destruct (fst (eps_value self)); simpl in Hr; [|discriminate].
        injection Hr as <-. destruct (bytes (args self)); reflexivity.
      - simpl in Hr. injection Hr as <-. destruct (bytes (args self)); reflexivity. }
    destruct (ip_counter self) as [|x c] eqn:Hc; [exact Hv|].
    destruct (last_error_some _ _ (insert_desc_not_nil x (Py.sorted_desc c))) as [[ip n] Hp].
    change (Py.insert_desc x (Py.sorted_desc c)) with (Py.sorted_desc (x :: c)) in Hp.
    destruct (last_error_sorted_desc _ _ Hp) as [before [after [Heq [Hb Ha]]]].
    exists ip, n, before, after. rewrite Hv, Hp. auto.
Qed.

Lemma lfip_is_last_inserted_minimum_witness :
  exists r : Results,
    fst (get_results
           (Sample.state_after Sample.two_addresses (Sample.args_lfip ["access.log"])))
    = Ret r.
Proof.
  refine (proj1 (lfip_is_last_inserted_minimum _ _) _); vm_compute; reflexivity.
Defined.

(** C4, as stated, fails.  Two addresses seen once each, ["10.0.0.1"]
    first: the first-encountered minimum is ["10.0.0.1"], and [get_results]
    gives ["10.0.0.2"]. *)
Lemma lfip_is_not_first_encountered :
  let self := Sample.state_after Sample.two_addresses (Sample.args_lfip ["access.log"]) in
  ip_counter self = [("10.0.0.1", 1); ("10.0.0.2", 1)]
  /\ Spec.first_least (ip_counter self) = Some ("10.0.0.1", 1)
  /\ fst (get_results self)
     = Ret {| result_mfip := None;
              result_lfip := Some (Some ("10.0.0.2", 1));
              result_eps := None;
              result_bytes := None |}.
Proof.
  vm_compute. repeat split; reflexivity.
Qed.

(** ** The scan of a file *)

Lemma record_of_some (line : string) (e : LogEntry) :
  record_of line = Some e <-> parse_line line = Ret (Some e).
Proof.
  unfold record_of. destruct (parse_line line) as [[e'|]|x]; split; intros H;
    try discriminate; congruence.
Qed.

(** When the scan returns, it has counted exactly the valid records. *)
Lemma scan_ret (a : Args) (lines : list string) :
  forall loc loc' : Local,
    scan a loc lines = Ret loc' ->
    loc' = fold_left (count_entry a) (records lines) loc.
Proof.
  induction lines as [|line rest IH]; intros loc loc' H; simpl in H.
  - injection H as <-. reflexivity.
  - simpl. unfold record_of.
    destruct (parse_line line) as [[e|]|x]; simpl in H |- *; try discriminate;
      apply IH; exact H.
Qed.

(** The scan raises only what [parse_line] raises. *)
Lemma scan_raise (a : Args) (lines : list string) :
  forall (loc : Local) (x : exn),
    scan a loc lines = Raise x ->
    exists line, In line lines /\ parse_line line = Raise x.
Proof.
  induction lines as [|line rest IH]; intros loc x H; simpl in H; [discriminate|].
  destruct (parse_line line) as [[e|]|y] eqn:P; simpl in H.
  - destruct (IH _ _ H) as [l [Hl Hp]]. exists l. simpl. auto.
  - destruct (IH _ _ H) as [l [Hl Hp]]. exists l. simpl. auto.
  - injection H as <-. exists line. simpl. auto.
Qed.

(** The scan returns when no line makes [parse_line] raise. *)
Lemma scan_total (a : Args) (lines : list string) (loc : Local) :
  (forall line, In line lines -> forall x, parse_line line <> Raise x) ->
  scan a loc lines = Ret (fold_left (count_entry a) (records lines) loc).
Proof.
  intros Hok. destruct (scan a loc lines) as [loc'|x] eqn:H.
  - rewrite (scan_ret _ _ _ _ H). reflexivity.
  - destruct (scan_raise _ _ _ _ H) as [line [Hin Hp]].
    destruct (Hok line Hin x Hp).
Qed.

Lemma records_none (lines : list string) :
  (forall line, In line lines -> parse_line line = Ret None) -> records lines = [].
Proof.
  induction lines as [|line rest IH]; intros H; [reflexivity|].
  simpl. unfold record_of. rewrite (H line (or_introl eq_refl)).
  apply IH. intros l Hl. apply H. right. exact Hl.
Qed.

Lemma sum_bytes_app (es fs : list LogEntry) :
  sum_bytes (es ++ fs) = sum_bytes es + sum_bytes fs.
Proof.
  induction es as [|e es IH]; simpl; [reflexivity|].
  unfold sum_bytes in *. simpl. rewrite IH. lia.
Qed.

Lemma count_entries_fold (a : Args) (es : list LogEntry) :
  forall loc : Local,
    local_entries_count (fold_left (count_entry a) es loc)
    = local_entries_count loc + Z.of_nat (List.length es).
Proof.
  induction es as [|e es IH]; intros loc; cbn [fold_left List.length].
  - simpl. lia.
  - rewrite IH. cbn [count_entry local_entries_count]. lia.
Qed.

Lemma count_bytes_fold (a : Args) (es : list LogEntry) :
  forall loc : Local,
    local_total_bytes (fold_left (count_entry a) es loc)
    = local_total_bytes loc + (if bytes a then sum_bytes es else 0).
Proof.
  induction es as [|e es IH]; intros loc; cbn [fold_left].
  - destruct (bytes a); simpl; lia.
  - rewrite IH. cbn [count_entry local_total_bytes].
    unfold sum_bytes, bytes_of. destruct (bytes a); simpl; lia.
Qed.

(** ** The merge *)

(** What the merge does to the counts and to [args], whether it returns
    or raises. *)
Lemma merge_counts (loc : Local) (self : LogProcessor) :
  let self' := snd (merge loc self) in
  args self' = args self
  /\ entries_count self' = entries_count self + local_entries_count loc
  /\ total_bytes self' = total_bytes self + local_total_bytes loc.
Proof.
  cbv zeta. unfold merge, bind, gets, modify, when, is_none_or, lift, ret.
  cbn [args set_entries_count set_total_bytes set_ip_counter].
  destruct (eps (args self)); [|simpl; auto].
  destruct (earliest_timestamp self) as [e|], (latest_timestamp self) as [l|],
    (local_earliest_timestamp loc) as [le|], (local_latest_timestamp loc) as [ll|];
    cbn; repeat match goal with |- context [if ?b then _ else _] => destruct b; cbn end;
    auto.
Qed.

(** Without events per second the merge always returns. *)
Lemma merge_without_eps (loc : Local) (self : LogProcessor) :
  eps (args self) = false -> fst (merge loc self) = Ret tt.
Proof.
  intros H. unfold merge, bind, gets, modify, when.
  cbn [args set_entries_count set_total_bytes set_ip_counter]. rewrite H. reflexivity.
Qed.

(** Merging the counters of a file without records into a fresh state
    leaves the fresh state. *)
Lemma merge_nothing_into_fresh (a : Args) :
  merge local_init (init a) = (Ret tt, init a).
Proof.
  unfold merge, bind, gets, modify, when, init. cbn.
  destruct (eps a); reflexivity.
Qed.

(** ** process_file and process_logs *)

Lemma process_file_eq (content : string) (self : LogProcessor) :
  process_file content self
  = match scan (args self) local_init (Py.readlines content) with
    | Ret loc => merge loc self
    | Raise x => (Raise x, self)
    end.
Proof.
  unfold process_file, bind, gets, lift.
  destruct (scan (args self) local_init (Py.readlines content)); reflexivity.
Qed.

Lemma process_file_ret (content : string) (self self' : LogProcessor) :
  process_file content self = (Ret tt, self') ->
  let es := records (Py.readlines content) in
  args self' = args self
  /\ entries_count self' = entries_count self + Z.of_nat (List.length es)
  /\ total_bytes self'
     = total_bytes self + (if bytes (args self) then sum_bytes es else 0).
Proof.
  rewrite process_file_eq. cbv zeta.
  destruct (scan (args self) local_init (Py.readlines content)) as [loc|x] eqn:Hs;
    [|discriminate].
  intros Hm. pose proof (merge_counts loc self) as Hc. cbv zeta in Hc.
  rewrite Hm in Hc. cbn [snd] in Hc. destruct Hc as [Ha [He Hb]].
  rewrite (scan_ret _ _ _ _ Hs) in He, Hb.
  rewrite count_entries_fold in He. rewrite count_bytes_fold in Hb.
  cbn [local_init local_entries_count local_total_bytes] in He, Hb.
  repeat split; [exact Ha | lia | lia].
Qed.

Lemma process_paths_ret (fs : FileSystem) (paths : list string) :
  forall self self' : LogProcessor,
    process_paths fs paths self = (Ret tt, self') ->
    let es := records_of_inputs fs paths in
    args self' = args self
    /\ entries_count self' = entries_count self + Z.of_nat (List.length es)
    /\ total_bytes self'
       = total_bytes self + (if bytes (args self) then sum_bytes es else 0).
Proof.
  induction paths as [|path rest IH]; intros self self' H; cbv zeta; simpl in H |- *.
  - injection H as <-. destruct (bytes (args self)); repeat split; simpl; lia.
  - destruct (fs path) as [content|]; [|discriminate].
    unfold bind in H.
    destruct (process_file content self) as [[[]|x] s1] eqn:Hf; [|discriminate].
    destruct (process_file_ret _ _ _ Hf) as [Ha1 [He1 Hb1]].
    destruct (IH _ _ H) as [Ha2 [He2 Hb2]].
    rewrite Ha1 in Hb2.
    rewrite length_app, sum_bytes_app, Nat2Z.inj_add.
    repeat split; [congruence | lia |].
    destruct (bytes (args self)); lia.
Qed.

(** Without events per second, [process_logs] completes as soon as every
    input exists and no line makes the parser raise. *)
Lemma process_paths_completes (fs : FileSystem) (paths : list string) :
  forall self : LogProcessor,
    eps (args self) = false ->
    (forall path, In path paths ->
       exists content,
         fs path = Some content
         /\ forall line, In line (Py.readlines content) ->
                         forall x, parse_line line <> Raise x) ->
    fst (process_paths fs paths self) = Ret tt.
Proof.
  induction paths as [|path rest IH]; intros self He Hok; [reflexivity|].
  simpl. destruct (Hok path (or_introl eq_refl)) as [content [Hfs Hlines]].
  rewrite Hfs. unfold bind. rewrite process_file_eq.
  rewrite (scan_total _ _ _ Hlines).
  set (loc := fold_left _ _ _).
  pose proof (merge_without_eps loc self He) as Hm.
  pose proof (merge_counts loc self) as [Ha _].
  destruct (merge loc self) as [o s1]. simpl in Hm, Ha. subst o.
  apply IH; [congruence|].
  intros p Hp. apply Hok. right. exact Hp.
Qed.

(** Inputs without a single record leave a fresh state fresh, whichever
    metrics are requested. *)
Lemma process_paths_no_records (fs : FileSystem) (a : Args) (paths : list string) :
  (forall path, In path paths ->
     exists content,
       fs path = Some content
       /\ forall line, In line (Py.readlines content) -> parse_line line = Ret None) ->
  process_paths fs paths (init a) = (Ret tt, init a).
Proof.
  induction paths as [|path rest IH]; intros Hok; [reflexivity|].
  simpl. destruct (Hok path (or_introl eq_refl)) as [content [Hfs Hlines]].
  rewrite Hfs. unfold bind. rewrite process_file_eq.
  rewrite scan_total.
  - rewrite (records_none _ Hlines). simpl fold_left.
    rewrite merge_nothing_into_fresh. apply IH.
    intros p Hp. apply Hok. right. exact Hp.
  - intros line Hin x Hx. rewrite (Hlines line Hin) in Hx. discriminate.
Qed.

Lemma get_results_no_entries (self : LogProcessor) :
  eps (args self) = true ->
  entries_count self = 0 ->
  get_results self = (Raise NoEntriesFoundError, self).
Proof.
  intros He Hn. rewrite get_results_eq. cbv zeta. rewrite He.
  unfold eps_value, bind, gets, raise. rewrite Hn. reflexivity.
Qed.

(** With events per second requested: [get_results] raises
    [NoEntriesFoundError] on every state whose entry count is zero; it does
    so after every run of [process_logs] that returned and whose inputs
    hold no valid record; and when every line of every input is no record,
    the run as a whole ends in [NoEntriesFoundError]. *)
Theorem no_valid_record_raises_NoEntriesFoundError (fs : FileSystem) (a : Args) :
  eps a = true ->
  (forall self : LogProcessor,
     args self = a -> entries_count self = 0 ->
     get_results self = (Raise NoEntriesFoundError, self))
  /\ (forall self : LogProcessor,
        process_logs fs (init a) = (Ret tt, self) ->
        records_of_inputs fs (input a) = [] ->
        get_results self = (Raise NoEntriesFoundError, self))
  /\ ((forall path, In path (input a) ->
         exists content,
           fs path = Some content
           /\ forall line, In line (Py.readlines content) -> parse_line line = Ret None) ->
      fst (run fs a) = Raise NoEntriesFoundError).
Proof.
  intros He. split; [|split].
  - intros self Ha Hn. apply get_results_no_entries; [rewrite Ha; exact He | exact Hn].
  - intros self Hp Hr. unfold process_logs, bind, gets in Hp. cbn [init args] in Hp.
    destruct (process_paths_ret _ _ _ _ Hp) as [Ha [Hn _]].
    rewrite Hr in Hn. apply get_results_no_entries; [rewrite Ha; exact He | exact Hn].
  - intros Hok. unfold run, process_logs, bind, gets. cbn [init args].
    rewrite (process_paths_no_records fs a (input a) Hok).
    rewrite get_results_no_entries; [reflexivity | exact He | reflexivity].
Qed.

Lemma no_valid_record_raises_NoEntriesFoundError_witness :
  fst (run (Sample.one_file Sample.malformed) (Sample.args_eps ["access.log"]))
  = Raise NoEntriesFoundError.
Proof.
  refine (proj2 (proj2 (no_valid_record_raises_NoEntriesFoundError
                          (Sample.one_file Sample.malformed)
                          (Sample.args_eps ["access.log"]) eq_refl)) _).
  intros path [<- | []]. exists Sample.malformed. split; [reflexivity|].
  intros line Hin. vm_compute in Hin.
  destruct Hin as [<- | [<- | [<- | []]]]; vm_compute; reflexivity.
Defined.

(** ** Total bytes *)

(** C9, as the code has it.  The two sizes of a record are the integers
    that [int] reads in fields 1 and 4, of either sign; when [process_logs]
    completes, the byte total is the sum of the two sizes over the valid
    records of all inputs if the bytes metric is requested, and 0 if not;
    and without events per second [process_logs] does complete when every
    input exists and no line makes the parser raise. *)
Theorem total_bytes_sums_parsed_sizes (fs : FileSystem) (a : Args) :
  (forall (line : string) (e : LogEntry),
     parse_line line = Ret (Some e) ->
     Py.int (nth 1 (fields_of line) EmptyString) = Some (response_header_size e)
     /\ Py.int (nth 4 (fields_of line) EmptyString) = Some (response_size e))
  /\ (forall self : LogProcessor,
        process_logs fs (init a) = (Ret tt, self) ->
        total_bytes self
        = if bytes a then sum_bytes (records_of_inputs fs (input a)) else 0)
  /\ (eps a = false ->
      (forall path, In path (input a) ->
         exists content,
           fs path = Some content
           /\ forall line, In line (Py.readlines content) ->
                           forall x, parse_line line <> Raise x) ->
      fst (process_logs fs (init a)) = Ret tt).
Proof.
  split; [|split].
  - intros line e H.
    destruct (parse_line_cases line)
      as [[_ Hp] | [[_ [_ Hp]] | [_ [ts [rhs [rs [_ [H1 [H4 Hp]]]]]]]]];
      cbv zeta in *; rewrite Hp in H; try discriminate.
    injection H as <-. simpl. auto.
  - intros self Hp. unfold process_logs, bind, gets in Hp. cbn [init args] in Hp.
    destruct (process_paths_ret _ _ _ _ Hp) as [_ [_ Hb]].
    cbn [init args total_bytes] in Hb. rewrite Hb. reflexivity.
  - intros He Hok. unfold process_logs, bind, gets. cbn [init args].
    apply process_paths_completes; [exact He | exact Hok].
Qed.

Lemma total_bytes_sums_parsed_sizes_witness :
  total_bytes (Sample.state_after Sample.three_lines (Sample.args_bytes ["access.log"]))
  = sum_bytes (records_of_inputs (Sample.one_file Sample.three_lines) ["access.log"]).
Proof.
  refine (proj1 (proj2 (total_bytes_sums_parsed_sizes
                          (Sample.one_file Sample.three_lines)
                          (Sample.args_bytes ["access.log"])))
            (Sample.state_after Sample.three_lines (Sample.args_bytes ["access.log"])) _).
  vm_compute. reflexivity.
Defined.

(** C9, as stated, fails.  [int] reads a sign: a line with the sizes -5
    and -7 is a valid record, and the byte total of a file holding that one
    line is -12. *)
Lemma negative_sizes_are_parsed :
  (exists e : LogEntry,
     parse_line Sample.negative_sizes = Ret (Some e)
     /\ response_header_size e = -5
     /\ response_size e = -7)
  /\ fst (run (Sample.one_file Sample.negative_sizes) (Sample.args_bytes ["access.log"]))
     = Ret {| result_mfip := None;
              result_lfip := None;
              result_eps := None;
              result_bytes := Some (-12) |}.
Proof.
  split.
  - eexists. split; [vm_compute; reflexivity|]. split; reflexivity.
  - vm_compute. reflexivity.
Qed.

(** ** The most frequent address *)

(** [max] keeps the first item of greatest count: started from [b], the
    fold either keeps [b], which then no later item exceeds, or ends on a
    later item that strictly exceeds [b] and everything before it. *)
Lemma max_fold_first (l : list (string * Z)) :
  forall b p : string * Z,
    fold_left
      (fun best x =>
         match best with
         | None => Some x
         | Some b => if (snd b <? snd x)%Z then Some x else best
         end)
      l (Some b) = Some p ->
    (p = b /\ forall x, In x l -> snd x <= snd b)
    \/ exists l1 l2 : list (string * Z),
         l = (l1 ++ p :: l2)%list
         /\ snd b < snd p
         /\ (forall x, In x l1 -> snd x < snd p)
         /\ (forall x, In x l2 -> snd x <= snd p).
Proof.
  induction l as [|x l IH]; intros b p H; simpl in H.
  - injection H as <-. left. split; [reflexivity | intros x []].
  - destruct (snd b <? snd x)%Z eqn:C.
    + apply Z.ltb_lt in C. right.
      destruct (IH _ _ H) as [[-> Hall] | [l1 [l2 [-> [Hlt [H1 H2]]]]]].
      * exists [], l. repeat split; [exact C | intros y [] | exact Hall].
      * exists (x :: l1), l2. repeat split; [lia | | exact H2].
        intros y [<- | Hy]; [exact Hlt | apply H1, Hy].
    + apply Z.ltb_ge in C.
      destruct (IH _ _ H) as [[-> Hall] | [l1 [l2 [-> [Hlt [H1 H2]]]]]].
      * left. split; [reflexivity|]. intros y [<- | Hy]; [exact C | apply Hall, Hy].
      * right. exists (x :: l1), l2. repeat split; [exact Hlt | | exact H2].
        intros y [<- | Hy]; [lia | apply H1, Hy].
Qed.

Lemma max_by_count_first (c : list (string * Z)) (p : string * Z) :
  Py.max_by_count c = Some p ->
  exists before after : list (string * Z),
    c = (before ++ p :: after)%list
    /\ (forall x, In x before -> snd x < snd p)
    /\ (forall x, In x after -> snd x <= snd p).
Proof.
  destruct c as [|b c]; [discriminate|].
  unfold Py.max_by_count. simpl. intros H.
  destruct (max_fold_first _ _ _ H) as [[-> Hall] | [l1 [l2 [-> [Hlt [H1 H2]]]]]].
  - exists [], c. repeat split; [intros x [] | exact Hall].
  - exists (b :: l1), l2. repeat split; [|exact H2].
    intros y [<- | Hy]; [exact Hlt | apply H1, Hy].
Qed.

(** With the most frequent address requested, whenever [get_results]
    returns: under ['mfip'] stands [None] for an empty counter, and
    otherwise the pair of highest count that was inserted first among the
    pairs of that count. *)
Theorem mfip_is_first_inserted_maximum (self : LogProcessor) :
  mfip (args self) = true ->
  (eps (args self) = false -> exists r, fst (get_results self) = Ret r)
  /\ forall r : Results,
       fst (get_results self) = Ret r ->
       match ip_counter self with
       | [] => result_mfip r = Some None
       | _ :: _ =>
           exists (ip : string) (n : Z) (before after : list (string * Z)),
             result_mfip r = Some (Some (ip, n))
             /\ ip_counter self = (before ++ (ip, n) :: after)%list
             /\ (forall x, In x before -> snd x < n)
             /\ (forall x, In x after -> snd x <= n)
       end.
Proof.
  intros Hm. rewrite get_results_eq. cbv zeta. rewrite Hm. split.
  - intros He. rewrite He. eexists. reflexivity.
  - intros r Hr.
    assert (Hv : result_mfip r = Some (Py.max_by_count (ip_counter self))).
    { destruct (eps (args self)).
      - destruct (fst (eps_value self)); simpl in Hr; [|discriminate].
        injection Hr as <-.
        destruct (lfip (args self)), (bytes (args self)); reflexivity.
      - simpl in Hr. injection Hr as <-.
        destruct (lfip (args self)), (bytes (args self)); reflexivity. }
    destruct (ip_counter self) as [|x c] eqn:Hc; [exact Hv|].
    destruct (max_by_count_some c x) as [[ip n] Hp].
    assert (Hmax : Py.max_by_count (x :: c) = Some (ip, n)) by exact Hp.
    destruct (max_by_count_first _ _ Hmax) as [before [after [Heq [Hb Ha]]]].
    exists ip, n, before, after. rewrite Hv, Hmax. auto.
Qed.

Lemma mfip_is_first_inserted_maximum_witness :
  exists r : Results,
    fst (get_results
           (Sample.state_after Sample.three_lines (Sample.args_mfip ["access.log"])))
    = Ret r.
Proof.
  refine (proj1 (mfip_is_first_inserted_maximum _ _) _); vm_compute; reflexivity.
Defined.

(** ** What the merge computes *)

Ltac split_ifs :=
  repeat match goal with
         | |- context [if ?b then _ else _] => destruct b eqn:?; cbn
         end.

(** The merge adds the counts, updates the counter key by key and, with
    events per second requested, moves a shared bound to the local one
    when the shared one is unset or the local one lies beyond it.  It
    raises nothing but [TypeError], and raises it exactly when events per
    second is requested and a local bound is unset against a shared bound
    that is set.  (A set shared bound against an unset local one is the
    raising case; the equation for the bounds is stated for a merge that
    returned.) *)
Theorem merge_sums_and_orders (loc : Local) (self : LogProcessor) :
  let self' := snd (merge loc self) in
  (fst (merge loc self) = Ret tt \/ fst (merge loc self) = Raise TypeError)
  /\ (fst (merge loc self) = Raise TypeError <->
      eps (args self) = true
      /\ ((earliest_timestamp self <> None /\ local_earliest_timestamp loc = None)
          \/ (latest_timestamp self <> None /\ local_latest_timestamp loc = None)))
  /\ ip_counter self' = Py.counter_update (ip_counter self) (local_ip_counter loc)
  /\ entries_count self' = entries_count self + local_entries_count loc
  /\ total_bytes self' = total_bytes self + local_total_bytes loc
  /\ (fst (merge loc self) = Ret tt ->
      earliest_timestamp self'
      = (if eps (args self) then
           match earliest_timestamp self, local_earliest_timestamp loc with
           | Some s, Some l => if Py.flt l s then Some l else Some s
           | Some s, None => Some s
           | None, l => l
           end
         else earliest_timestamp self)
      /\ latest_timestamp self'
         = (if eps (args self) then
              match latest_timestamp self, local_latest_timestamp loc with
              | Some s, Some l => if Py.fgt l s then Some l else Some s
              | Some s, None => Some s
              | None, l => l
              end
            else latest_timestamp self)).
Proof.
  cbv zeta.
  destruct self as [a c e l n b], loc as [lc ln lb le ll].
  unfold merge, bind, gets, modify, when, is_none_or, lift, ret. cbn.
  destruct (eps a); [destruct e, l, le, ll; cbn; split_ifs | cbn].
  all: split; [auto|].
  all: split; [|do 3 (split; [reflexivity|])].
  all: try (intros H; try discriminate H; split; reflexivity).
  all: split.
  all: try discriminate.
  all: try (intros [Hx [[H1 H2] | [H1 H2]]]; try discriminate; try congruence;
            reflexivity).
  all: try (intros _; split; [reflexivity|]).
  all: try (left; split; [discriminate | reflexivity]).
  all: try (right; split; [discriminate | reflexivity]).
Qed.

(** ** Counters add key by key *)

Lemma counter_get_set (c : Py.Counter) (k k' : string) (v : Z) :
  Py.counter_get (Py.counter_set c k v) k'
  = if String.eqb k k' then v else Py.counter_get c k'.
Proof.
  induction c as [|[key v0] c IH]; simpl.
  - destruct (String.eqb k k'); reflexivity.
  - destruct (String.eqb key k) eqn:E; simpl.
    + apply String.eqb_eq in E. subst key.
      destruct (String.eqb k k'); reflexivity.
    + rewrite IH. destruct (String.eqb key k') eqn:E'; [|reflexivity].
      apply String.eqb_eq in E'. subst key. rewrite String.eqb_sym, E. reflexivity.
Qed.

Lemma counter_get_absent (c : Py.Counter) (k : string) :
  ~ In k (map fst c) -> Py.counter_get c k = 0.
Proof.
  induction c as [|[key v] c IH]; simpl; [reflexivity|].
  intros H. destruct (String.eqb key k) eqn:E.
  - apply String.eqb_eq in E. tauto.
  - apply IH. tauto.
Qed.

Lemma counter_fold_get (other : Py.Counter) :
  NoDup (map fst other) ->
  forall (c : Py.Counter) (k : string),
    Py.counter_get
      (fold_left
         (fun acc item =>
            Py.counter_set acc (fst item) (snd item + Py.counter_get acc (fst item)))
         other c) k
    = Py.counter_get c k + Py.counter_get other k.
Proof.
  induction other as [|[k1 v1] other IH]; intros Hnd c k; simpl.
  - lia.
  - inversion Hnd as [|? ? Hnotin Hnd']; subst.
    rewrite (IH Hnd'), counter_get_set. simpl.
    destruct (String.eqb k1 k) eqn:E; [|reflexivity].
    apply String.eqb_eq in E. subst k1.
    rewrite (counter_get_absent _ _ Hnotin). lia.
Qed.

(** [update] adds the counts of a mapping key by key. *)
Lemma counter_update_get (c other : Py.Counter) (k : string) :
  NoDup (map fst other) ->
  Py.counter_get (Py.counter_update c other) k
  = Py.counter_get c k + Py.counter_get other k.
Proof.
  intros Hnd. unfold Py.counter_update. destruct c as [|x c].
  - reflexivity.
  - apply counter_fold_get, Hnd.
Qed.

Lemma counter_set_keys (c : Py.Counter) (k : string) (v : Z) :
  map fst (Py.counter_set c k v)
  = if existsb (String.eqb k) (map fst c) then map fst c else (map fst c ++ [k])%list.
Proof.
  induction c as [|[key v0] c IH]; simpl; [reflexivity|].
  rewrite (String.eqb_sym k key).
  destruct (String.eqb key k) eqn:E; simpl.
  - apply String.eqb_eq in E. subst key. reflexivity.
  - rewrite IH. destruct (existsb (String.eqb k) (map fst c)); reflexivity.
Qed.

(** Assignment keeps the keys of a counter distinct. *)
Lemma counter_set_nodup (c : Py.Counter) (k : string) (v : Z) :
  NoDup (map fst c) -> NoDup (map fst (Py.counter_set c k v)).
Proof.
  intros Hnd. rewrite counter_set_keys.
  destruct (existsb (String.eqb k) (map fst c)) eqn:E; [exact Hnd|].
  apply NoDup_app; [exact Hnd | constructor; [intros [] | constructor] |].
  intros x Hx [Hk | []]. subst x.
  assert (existsb (String.eqb k) (map fst c) = true); [|congruence].
  apply existsb_exists. exists k. split; [exact Hx | apply String.eqb_refl].
Qed.

(** The local counter of a scan has distinct keys. *)
Lemma count_entries_nodup (a : Args) (es : list LogEntry) :
  forall loc : Local,
    NoDup (map fst (local_ip_counter loc)) ->
    NoDup (map fst (local_ip_counter (fold_left (count_entry a) es loc))).
Proof.
  induction es as [|e es IH]; intros loc Hnd; [exact Hnd|].
  simpl. apply IH. cbn [count_entry local_ip_counter].
  destruct (mfip a || lfip a); [apply counter_set_nodup, Hnd | exact Hnd].
Qed.

(** ** The order of two files, without events per second *)

Lemma parse_line_raise (line : string) (x : exn) :
  parse_line line = Raise x -> x = ValueError.
Proof.
  destruct (parse_line_cases line)
    as [[_ Hp] | [[_ [_ Hp]] | [_ [ts [rhs [rs [_ [_ [_ Hp]]]]]]]]];
    cbv zeta in Hp; rewrite Hp; intros H; try discriminate.
  injection H as <-. reflexivity.
Qed.

Lemma scan_raise_ValueError (a : Args) (lines : list string) (loc : Local) (x : exn) :
  scan a loc lines = Raise x -> x = ValueError.
Proof.
  intros H. destruct (scan_raise _ _ _ _ H) as [line [_ Hp]].
  exact (parse_line_raise _ _ Hp).
Qed.

Lemma merge_without_eps_eq (loc : Local) (self : LogProcessor) :
  eps (args self) = false ->
  merge loc self
  = (Ret tt,
     {| args := args self;
        ip_counter := Py.counter_update (ip_counter self) (local_ip_counter loc);
        earliest_timestamp := earliest_timestamp self;
        latest_timestamp := latest_timestamp self;
        entries_count := entries_count self + local_entries_count loc;
        total_bytes := total_bytes self + local_total_bytes loc |}).
Proof.
  intros H. unfold merge, bind, gets, modify, when.
  cbn [args set_entries_count set_total_bytes set_ip_counter]. rewrite H. reflexivity.
Qed.

Lemma scan_nodup (a : Args) (lines : list string) (loc : Local) :
  scan a local_init lines = Ret loc -> NoDup (map fst (local_ip_counter loc)).
Proof.
  intros H. rewrite (scan_ret _ _ _ _ H).
  apply count_entries_nodup. constructor.
Qed.

Lemma process_file_without_eps (content : string) (self : LogProcessor) :
  eps (args self) = false ->
  process_file content self
  = match scan (args self) local_init (Py.readlines content) with
    | Ret loc =>
        (Ret tt,
         {| args := args self;
            ip_counter := Py.counter_update (ip_counter self) (local_ip_counter loc);
            earliest_timestamp := earliest_timestamp self;
            latest_timestamp := latest_timestamp self;
            entries_count := entries_count self + local_entries_count loc;
            total_bytes := total_bytes self + local_total_bytes loc |})
    | Raise x => (Raise x, self)
    end.
Proof.
  intros H. rewrite process_file_eq.
  destruct (scan (args self) local_init (Py.readlines content)); [|reflexivity].
  apply merge_without_eps_eq, H.
Qed.

Lemma process_paths_cons (fs : FileSystem) (path content : string)
    (rest : list string) (self : LogProcessor) :
  fs path = Some content ->
  process_paths fs (path :: rest) self
  = match process_file content self with
    | (Ret _, self') => process_paths fs rest self'
    | (Raise x, self') => (Raise x, self')
    end.
Proof. intros H. simpl. rewrite H. reflexivity. Qed.

(** Without events per second, two existing files processed in either
    order end alike: both runs return or both raise [ValueError], and when
    they return they agree on the entry count, on the byte total, on the
    count of every address, and on the two bounds, which stay unset. *)
Theorem two_files_commute_without_eps
    (fs : FileSystem) (a : Args) (pa pb ca cb : string) :
  eps a = false ->
  fs pa = Some ca ->
  fs pb = Some cb ->
  let ab := process_paths fs [pa; pb] (init a) in
  let ba := process_paths fs [pb; pa] (init a) in
  fst ab = fst ba
  /\ (fst ab = Ret tt \/ fst ab = Raise ValueError)
  /\ (fst ab = Ret tt ->
      entries_count (snd ab) = entries_count (snd ba)
      /\ total_bytes (snd ab) = total_bytes (snd ba)
      /\ (forall k : string,
            Py.counter_get (ip_counter (snd ab)) k
            = Py.counter_get (ip_counter (snd ba)) k)
      /\ earliest_timestamp (snd ab) = None
      /\ earliest_timestamp (snd ba) = None
      /\ latest_timestamp (snd ab) = None
      /\ latest_timestamp (snd ba) = None).
Proof.
  intros He Ha Hb. cbv zeta.
  rewrite (process_paths_cons fs pa ca [pb] _ Ha), (process_paths_cons fs pb cb [pa] _ Hb).
  rewrite !(process_file_without_eps _ (init a)) by exact He. cbn [init args].
  destruct (scan a local_init (Py.readlines ca)) as [la|x] eqn:Sa;
    destruct (scan a local_init (Py.readlines cb)) as [lb|y] eqn:Sb;
    rewrite ?(process_paths_cons fs pa ca [] _ Ha), ?(process_paths_cons fs pb cb [] _ Hb);
    rewrite ?process_file_without_eps by exact He; cbn [args]; rewrite ?Sa, ?Sb;
    cbn [process_paths ret fst snd entries_count total_bytes ip_counter
           earliest_timestamp latest_timestamp init];
    try (pose proof (scan_raise_ValueError _ _ _ _ Sa); subst x);
    try (pose proof (scan_raise_ValueError _ _ _ _ Sb); subst y);
    (split; [reflexivity|]); (split; [auto|]); try discriminate.
  intros _. split; [lia|]. split; [lia|]. split; [|auto].
  intros k.
  pose proof (scan_nodup _ _ _ Sa) as Na. pose proof (scan_nodup _ _ _ Sb) as Nb.
  rewrite !counter_update_get by assumption. simpl. lia.
Qed.

Lemma two_files_commute_without_eps_witness :
  let fs := Sample.two_files Sample.three_lines Sample.two_addresses in
  let a := Sample.args_lfip [] in
  fst (process_paths fs ["a.log"; "b.log"] (init a))
  = fst (process_paths fs ["b.log"; "a.log"] (init a)).
Proof.
  exact (proj1 (two_files_commute_without_eps
                  (Sample.two_files Sample.three_lines Sample.two_addresses)
                  (Sample.args_lfip []) "a.log" "b.log"
                  Sample.three_lines Sample.two_addresses
                  eq_refl eq_refl eq_refl)).
Defined.

(** ** Which states make the events-per-second branch raise *)

Lemma round_raise (q : Py.binary64) (ndigits : Z) (x : exn) :
  Py.round q ndigits = Raise x -> x = OverflowError.
Proof.
  unfold Py.round. destruct q as [s|s| |s m e]; try discriminate.
  destruct (323 <? ndigits)%Z; [discriminate|].
  destruct (ndigits <? -308)%Z; [discriminate|].
  destruct (Py.float_of_decimal _ _ _); try discriminate.
  intros H. injection H as <-. reflexivity.
Qed.

(** On a state with entries, with both bounds set and a count that
    converts to a float: [NoTimeElapsedError] is raised exactly when one
    of the two bounds is zero, and [ZeroDivisionError] exactly when neither
    bound is zero and their difference is. *)
Theorem eps_raises_on_zero_bound_not_on_zero_span
    (self : LogProcessor) (e l n : Py.binary64) :
  eps (args self) = true ->
  entries_count self <> 0 ->
  Py.float_of_int (entries_count self) = Ret n ->
  earliest_timestamp self = Some e ->
  latest_timestamp self = Some l ->
  (fst (get_results self) = Raise NoTimeElapsedError
   <-> Py.fnot e = true \/ Py.fnot l = true)
  /\ (fst (get_results self) = Raise ZeroDivisionError
      <-> Py.fnot e = false /\ Py.fnot l = false /\ Py.fnot (Py.fsub l e) = true).
Proof.
  intros Heps Hn Hc He Hl.
  rewrite get_results_eq. cbv zeta. rewrite Heps.
  rewrite (eps_value_bounds_set self e l Hn He Hl).
  unfold Py.truediv. rewrite Hc. cbn [obind].
  destruct (Py.fnot e), (Py.fnot l); cbn [orb fst];
    try (split; split; [auto | reflexivity | discriminate
                        | intros [H1 [H2 _]]; discriminate]).
  destruct (Py.fnot (Py.fsub l e)); cbn [obind fst].
  - split; split; [discriminate | intros [H | H]; discriminate | auto | reflexivity].
  - destruct (Py.round (SFdiv Py.prec Py.emax n (Py.fsub l e)) 2) as [v|x] eqn:R;
      cbn [fst].
    + split; split;
        [discriminate | intros [H | H]; discriminate
         | discriminate | intros [_ [_ H]]; discriminate].
    + apply round_raise in R. subst x.
      split; split;
        [discriminate | intros [H | H]; discriminate
         | discriminate | intros [_ [_ H]]; discriminate].
Qed.

Lemma eps_raises_on_zero_bound_not_on_zero_span_witness :
  fst (get_results
         (Sample.state_after Sample.single_entry (Sample.args_eps ["access.log"])))
  = Raise ZeroDivisionError.
Proof.
  refine (proj2 (proj2 (eps_raises_on_zero_bound_not_on_zero_span
                          (Sample.state_after Sample.single_entry
                             (Sample.args_eps ["access.log"]))
                          (S754_finite false 8796093022208000 (-43))
                          (S754_finite false 8796093022208000 (-43))
                          (S754_finite false 4503599627370496 (-52))
                          _ _ _ _ _)) _);
    try (vm_compute; reflexivity).
  - vm_compute. discriminate.
  - split; [|split]; vm_compute; reflexivity.
Defined.

(* ===================================================================== *)
(** * Part V.  Further properties of the code                             *)
(* ===================================================================== *)

(** ** What get_results can raise, and which keys it fills *)

Lemma truediv_raise (n : Z) (d : Py.binary64) (x : exn) :
  Py.truediv n d = Raise x -> x = OverflowError \/ x = ZeroDivisionError.
Proof.
  unfold Py.truediv. destruct (Py.float_of_int n) as [a|y] eqn:F; cbn [obind].
  - destruct (Py.fnot d); [|discriminate]. intros H. injection H as <-. auto.
  - unfold Py.float_of_int in F.
    destruct (binary_normalize Py.prec Py.emax n 0 false); try discriminate.
    injection F as <-. intros H. injection H as <-. auto.
Qed.

Lemma eps_value_raise (self : LogProcessor) (x : exn) :
  fst (eps_value self) = Raise x ->
  (x = NoEntriesFoundError /\ entries_count self = 0)
  \/ (x = NoTimeElapsedError /\ entries_count self <> 0)
  \/ ((x = ZeroDivisionError \/ x = OverflowError) /\ entries_count self <> 0).
Proof.
  unfold eps_value, bind, gets, raise, lift.
  destruct (entries_count self =? 0)%Z eqn:N; cbn [fst].
  - apply Z.eqb_eq in N. intros H. injection H as <-. auto.
  - apply Z.eqb_neq in N.
    destruct (earliest_timestamp self) as [e|], (latest_timestamp self) as [l|];
      cbn [not_opt orb sub_opt]; rewrite ?orb_true_r;
      try (intros H; cbn in H; injection H as <-; auto; fail).
    destruct (Py.fnot e || Py.fnot l); cbn [fst].
    + intros H. injection H as <-. auto.
    + destruct (Py.truediv (entries_count self) (Py.fsub l e)) as [q|y] eqn:D; cbn [fst].
      * destruct (Py.round q 2) as [v|y] eqn:R; cbn [fst]; [discriminate|].
        apply round_raise in R. subst y. intros H. injection H as <-. auto.
      * apply truediv_raise in D. intros H. injection H as <-. tauto.
Qed.

(** [get_results] raises only in the events-per-second branch, and then
    one of [NoEntriesFoundError] (exactly for a zero entry count),
    [NoTimeElapsedError], [ZeroDivisionError] or [OverflowError]; never
    [IndexError], [TypeError] or [ValueError].  When it returns, the result
    holds a key for each requested metric and for no other, the byte total
    is the one of the state, and an address metric is [None] exactly for
    an empty counter. *)
Theorem get_results_keys_and_exceptions (self : LogProcessor) :
  (forall x : exn,
     fst (get_results self) = Raise x ->
     eps (args self) = true
     /\ (x = NoEntriesFoundError <-> entries_count self = 0)
     /\ (x = NoEntriesFoundError \/ x = NoTimeElapsedError
         \/ x = ZeroDivisionError \/ x = OverflowError))
  /\ (forall r : Results,
        fst (get_results self) = Ret r ->
        (result_mfip r <> None <-> mfip (args self) = true)
        /\ (result_lfip r <> None <-> lfip (args self) = true)
        /\ (result_eps r <> None <-> eps (args self) = true)
        /\ (result_bytes r <> None <-> bytes (args self) = true)
        /\ (bytes (args self) = true -> result_bytes r = Some (total_bytes self))
        /\ (result_mfip r = Some None -> ip_counter self = [])
        /\ (result_lfip r = Some None -> ip_counter self = [])).
Proof.
  rewrite get_results_eq. cbv zeta. split.
  - intros x H. destruct (eps (args self)); [|discriminate].
    split; [reflexivity|].
    destruct (fst (eps_value self)) as [v|y] eqn:E; [discriminate|].
    cbn [fst] in H. injection H as <-.
    destruct (eps_value_raise _ _ E) as [[-> N] | [[-> N] | [[-> | ->] N]]];
      (split; [split; [intros H; try discriminate H; assumption
                      | intros H; try reflexivity; contradiction]
              | auto]).
  - intros r H.
    assert (Hm : forall c : Py.Counter, Py.max_by_count c = None -> c = []).
    { intros [|x c]; [reflexivity|]. unfold Py.max_by_count. simpl.
      destruct (max_by_count_some c x) as [y Hy]. rewrite Hy. discriminate. }
    assert (Hl : forall c : Py.Counter, last_error (Py.sorted_desc c) = None -> c = []).
    { intros [|x c]; [reflexivity|].
      change (Py.sorted_desc (x :: c)) with (Py.insert_desc x (Py.sorted_desc c)).
      destruct (last_error_some _ _ (insert_desc_not_nil x (Py.sorted_desc c))) as [y Hy].
      rewrite Hy. discriminate. }
    destruct (mfip (args self)), (lfip (args self)), (eps (args self)),
      (bytes (args self));
      try (destruct (fst (eps_value self)) as [v|y]; [|discriminate]);
      cbn [fst] in H; injection H as <-; cbn;
      repeat split; intros; try discriminate; try congruence; try reflexivity;
      try (apply Hm; congruence); try (apply Hl; congruence).
Qed.

(** ** Missing files *)

Lemma merge_raise (loc : Local) (self : LogProcessor) (x : exn) :
  fst (merge loc self) = Raise x -> x = TypeError /\ eps (args self) = true.
Proof.
  destruct self as [a c e l n b], loc as [lc ln lb le ll].
  unfold merge, bind, gets, modify, when, is_none_or, lift, ret. cbn.
  destruct (eps a); [destruct e, l, le, ll; cbn; split_ifs | cbn];
    intros H; try discriminate H; injection H as <-; auto.
Qed.

(** [process_file] raises [ValueError], from the parser, or [TypeError],
    from the merge, and nothing else. *)
Lemma process_file_raise (content : string) (self : LogProcessor) (x : exn) :
  fst (process_file content self) = Raise x -> x = ValueError \/ x = TypeError.
Proof.
  rewrite process_file_eq.
  destruct (scan (args self) local_init (Py.readlines content)) as [loc|y] eqn:S.
  - intros H. apply merge_raise in H. tauto.
  - cbn. intros H. injection H as <-. left. exact (scan_raise_ValueError _ _ _ _ S).
Qed.

(** Processing a list of paths is processing a prefix and then, if that
    returned, the rest. *)
Lemma process_paths_app (fs : FileSystem) (pre post : list string) :
  forall self : LogProcessor,
    process_paths fs (pre ++ post) self
    = match process_paths fs pre self with
      | (Ret _, self') => process_paths fs post self'
      | (Raise x, self') => (Raise x, self')
      end.
Proof.
  induction pre as [|path pre IH]; intros self; [reflexivity|].
  cbn [app process_paths]. destruct (fs path) as [content|]; [|reflexivity].
  unfold bind. destruct (process_file content self) as [[[]|x] s1]; [apply IH | reflexivity].
Qed.

Lemma process_paths_exist (fs : FileSystem) (paths : list string) :
  forall self self' : LogProcessor,
    process_paths fs paths self = (Ret tt, self') ->
    forall path, In path paths -> fs path <> None.
Proof.
  induction paths as [|p rest IH]; intros self self' H path Hin; [destruct Hin|].
  cbn [process_paths] in H. destruct (fs p) as [content|] eqn:F; [|discriminate].
  unfold bind in H. destruct (process_file content self) as [[[]|x] s1]; [|discriminate].
  destruct Hin as [<- | Hin]; [congruence | exact (IH _ _ H path Hin)].
Qed.

Lemma process_paths_missing (fs : FileSystem) (paths : list string) :
  forall self self' : LogProcessor,
    process_paths fs paths self = (Raise FileNotFoundError, self') ->
    exists (pre : list string) (path : string) (post : list string),
      paths = (pre ++ path :: post)%list
      /\ fs path = None
      /\ process_paths fs pre self = (Ret tt, self').
Proof.
  induction paths as [|p rest IH]; intros self self' H; [discriminate|].
  cbn [process_paths] in H. destruct (fs p) as [content|] eqn:F.
  - unfold bind in H. destruct (process_file content self) as [[[]|x] s1] eqn:P.
    + destruct (IH _ _ H) as [pre [path [post [-> [Hn Hp]]]]].
      exists (p :: pre), path, post. repeat split; [exact Hn|].
      cbn [process_paths]. rewrite F. unfold bind. rewrite P. exact Hp.
    + injection H as -> ->.
      assert (Hx : fst (process_file content self) = Raise FileNotFoundError)
        by (rewrite P; reflexivity).
      destruct (process_file_raise _ _ _ Hx); discriminate.
  - injection H as <-. exists [], p, rest. auto.
Qed.

(** [process_logs] returns only if every input path exists.  It raises
    [FileNotFoundError] exactly when some input path is missing and the
    files listed before it were all processed without an exception; the
    state is then the one those files left, and the paths after the
    missing one are never read.  In particular a missing first path leaves
    the processor untouched. *)
Theorem process_logs_stops_at_missing_file
    (fs : FileSystem) (self : LogProcessor) :
  (forall self' : LogProcessor,
     process_logs fs self = (Ret tt, self') ->
     forall path, In path (input (args self)) -> fs path <> None)
  /\ (forall self' : LogProcessor,
        process_logs fs self = (Raise FileNotFoundError, self') <->
        exists (pre : list string) (path : string) (post : list string),
          input (args self) = (pre ++ path :: post)%list
          /\ fs path = None
          /\ process_paths fs pre self = (Ret tt, self'))
  /\ (forall (path : string) (post : list string),
        input (args self) = path :: post ->
        fs path = None ->
        process_logs fs self = (Raise FileNotFoundError, self)).
Proof.
  unfold process_logs, bind, gets. split; [|split].
  - intros self' H. exact (process_paths_exist _ _ _ _ H).
  - intros self'. split.
    + apply process_paths_missing.
    + intros [pre [path [post [-> [Hn Hp]]]]].
      rewrite process_paths_app, Hp. cbn [process_paths]. rewrite Hn. reflexivity.
  - intros path post -> Hn. cbn [process_paths]. rewrite Hn. reflexivity.
Qed.

(** ** What the counters hold after a run *)

Lemma count_ip_cons (k : string) (e : LogEntry) (es : list LogEntry) :
  count_ip k (e :: es)
  = (if String.eqb (client_ip e) k then 1 else 0) + count_ip k es.
Proof.
  unfold count_ip. cbn [filter].
  destruct (String.eqb (client_ip e) k); cbn [List.length]; lia.
Qed.

Lemma count_ip_app (k : string) (es fs : list LogEntry) :
  count_ip k (es ++ fs) = count_ip k es + count_ip k fs.
Proof.
  induction es as [|e es IH]; [reflexivity|].
  cbn [app]. rewrite !count_ip_cons, IH. lia.
Qed.

Lemma counter_get_incr (c : Py.Counter) (ip k : string) :
  Py.counter_get (Py.counter_incr c ip) k
  = Py.counter_get c k + (if String.eqb ip k then 1 else 0).
Proof.
  unfold Py.counter_incr. rewrite counter_get_set.
  destruct (String.eqb ip k) eqn:E; [|lia].
  apply String.eqb_eq in E. subst k. reflexivity.
Qed.

Lemma count_entries_get (a : Args) (k : string) (es : list LogEntry) :
  forall loc : Local,
    Py.counter_get (local_ip_counter (fold_left (count_entry a) es loc)) k
    = Py.counter_get (local_ip_counter loc) k
      + (if mfip a || lfip a then count_ip k es else 0).
Proof.
  induction es as [|e es IH]; intros loc; cbn [fold_left].
  - unfold count_ip. destruct (mfip a || lfip a); simpl; lia.
  - rewrite IH, count_ip_cons. cbn [count_entry local_ip_counter].
    destruct (mfip a || lfip a); [rewrite counter_get_incr|]; lia.
Qed.

Lemma counter_get_nonneg (c : Py.Counter) (k : string) :
  Forall (fun item => 1 <= snd item) c -> 0 <= Py.counter_get c k.
Proof.
  induction 1 as [|[key v] c Hv _ IH]; simpl; [lia|].
  destruct (String.eqb key k); [simpl in Hv; lia | exact IH].
Qed.

Lemma counter_set_positive (c : Py.Counter) (k : string) (v : Z) :
  1 <= v ->
  Forall (fun item => 1 <= snd item) c ->
  Forall (fun item => 1 <= snd item) (Py.counter_set c k v).
Proof.
  intros Hv. induction 1 as [|[key v0] c Hv0 Hc IH]; simpl.
  - constructor; [exact Hv | constructor].
  - destruct (String.eqb key k); constructor; assumption.
Qed.

Lemma counter_update_positive (other : Py.Counter) :
  Forall (fun item => 1 <= snd item) other ->
  forall c : Py.Counter,
    Forall (fun item => 1 <= snd item) c ->
    Forall (fun item => 1 <= snd item) (Py.counter_update c other).
Proof.
  intros Ho c Hc. unfold Py.counter_update. destruct c as [|x c]; [exact Ho|].
  generalize dependent (x :: c). clear x c.
  induction Ho as [|[k v] other Hv Ho IH]; intros c Hc; [exact Hc|].
  cbn [fold_left fst snd]. apply IH. apply counter_set_positive; [|exact Hc].
  pose proof (counter_get_nonneg c k Hc). simpl in Hv. lia.
Qed.

Lemma counter_update_nodup (other c : Py.Counter) :
  NoDup (map fst other) ->
  NoDup (map fst c) ->
  NoDup (map fst (Py.counter_update c other)).
Proof.
  intros Ho Hc. unfold Py.counter_update. destruct c as [|x c]; [exact Ho|].
  generalize dependent (x :: c). clear x c Ho.
  induction other as [|[k v] other IH]; intros c Hc; [exact Hc|].
  cbn [fold_left fst snd]. apply IH, counter_set_nodup, Hc.
Qed.

Lemma count_entries_positive (a : Args) (es : list LogEntry) :
  forall loc : Local,
    Forall (fun item => 1 <= snd item) (local_ip_counter loc) ->
    Forall (fun item => 1 <= snd item)
      (local_ip_counter (fold_left (count_entry a) es loc)).
Proof.
  induction es as [|e es IH]; intros loc H; [exact H|].
  cbn [fold_left]. apply IH. cbn [count_entry local_ip_counter].
  destruct (mfip a || lfip a); [|exact H].
  apply counter_set_positive; [|exact H].
  pose proof (counter_get_nonneg (local_ip_counter loc) (client_ip e) H). lia.
Qed.

Lemma counter_get_member (c : Py.Counter) (k : string) (v : Z) :
  NoDup (map fst c) -> In (k, v) c -> Py.counter_get c k = v.
Proof.
  induction c as [|[key v0] c IH]; intros Hnd Hin; [destruct Hin|].
  inversion Hnd as [|? ? Hnotin Hnd']; subst. simpl.
  destruct Hin as [Heq | Hin].
  - injection Heq as -> ->. rewrite String.eqb_refl. reflexivity.
  - destruct (String.eqb key k) eqn:E; [|exact (IH Hnd' Hin)].
    apply String.eqb_eq in E. subst key. exfalso. apply Hnotin.
    change k with (fst (k, v)). apply in_map, Hin.
Qed.

Lemma counter_get_present (c : Py.Counter) (k : string) :
  Py.counter_get c k <> 0 -> In (k, Py.counter_get c k) c.
Proof.
  induction c as [|[key v0] c IH]; simpl; [congruence|].
  destruct (String.eqb key k) eqn:E.
  - apply String.eqb_eq in E. subst key. auto.
  - auto.
Qed.

Lemma counter_total_set (c : Py.Counter) (k : string) (v : Z) :
  counter_total (Py.counter_set c k v)
  = counter_total c - Py.counter_get c k + v.
Proof.
  induction c as [|[key v0] c IH]; simpl; [lia|].
  destruct (String.eqb key k); simpl; [lia | rewrite IH; lia].
Qed.

Lemma counter_total_update (other c : Py.Counter) :
  counter_total (Py.counter_update c other) = counter_total c + counter_total other.
Proof.
  unfold Py.counter_update. destruct c as [|x c]; [simpl; lia|].
  generalize (x :: c). clear x c.
  induction other as [|[k v] other IH]; intros c; cbn [fold_left fst snd].
  - simpl. lia.
  - rewrite IH, counter_total_set. simpl. lia.
Qed.

Lemma count_entries_total (a : Args) (es : list LogEntry) :
  forall loc : Local,
    counter_total (local_ip_counter (fold_left (count_entry a) es loc))
    = counter_total (local_ip_counter loc)
      + (if mfip a || lfip a then Z.of_nat (List.length es) else 0).
Proof.
  induction es as [|e es IH]; intros loc; cbn [fold_left].
  - destruct (mfip a || lfip a); simpl; lia.
  - rewrite IH. cbn [count_entry local_ip_counter List.length].
    destruct (mfip a || lfip a); [|lia].
    unfold Py.counter_incr. rewrite counter_total_set. lia.
Qed.

Lemma merge_ip_counter (loc : Local) (self : LogProcessor) :
  ip_counter (snd (merge loc self))
  = Py.counter_update (ip_counter self) (local_ip_counter loc).
Proof.
  destruct self as [a c e l n b], loc as [lc ln lb le ll].
  unfold merge, bind, gets, modify, when, is_none_or, lift, ret. cbn.
  destruct (eps a); [destruct e, l, le, ll; cbn; split_ifs | cbn]; reflexivity.
Qed.

(** The counter of one more file. *)
Lemma process_file_counter (content : string) (self self' : LogProcessor) :
  process_file content self = (Ret tt, self') ->
  NoDup (map fst (ip_counter self)) ->
  Forall (fun item => 1 <= snd item) (ip_counter self) ->
  let es := records (Py.readlines content) in
  let on := mfip (args self) || lfip (args self) in
  NoDup (map fst (ip_counter self'))
  /\ Forall (fun item => 1 <= snd item) (ip_counter self')
  /\ (forall k, Py.counter_get (ip_counter self') k
                = Py.counter_get (ip_counter self) k + (if on then count_ip k es else 0))
  /\ counter_total (ip_counter self')
     = counter_total (ip_counter self) + (if on then Z.of_nat (List.length es) else 0).
Proof.
  rewrite process_file_eq. cbv zeta.
  destruct (scan (args self) local_init (Py.readlines content)) as [loc|x] eqn:Hs;
    [|discriminate].
  intros Hm Hnd Hpos.
  pose proof (merge_ip_counter loc self) as Hc. rewrite Hm in Hc. cbn [snd] in Hc.
  pose proof (scan_nodup _ _ _ Hs) as Hnl.
  assert (Hpl : Forall (fun item => 1 <= snd item) (local_ip_counter loc)).
  { rewrite (scan_ret _ _ _ _ Hs). apply count_entries_positive. constructor. }
  rewrite Hc. split; [apply counter_update_nodup; assumption|].
  split; [apply counter_update_positive; assumption|].
  split.
  - intros k. rewrite counter_update_get by exact Hnl.
    rewrite (scan_ret _ _ _ _ Hs), count_entries_get. reflexivity.
  - rewrite counter_total_update, (scan_ret _ _ _ _ Hs), count_entries_total.
    reflexivity.
Qed.

Lemma process_paths_counter (fs : FileSystem) (paths : list string) :
  forall self self' : LogProcessor,
    process_paths fs paths self = (Ret tt, self') ->
    NoDup (map fst (ip_counter self)) ->
    Forall (fun item => 1 <= snd item) (ip_counter self) ->
    let es := records_of_inputs fs paths in
    let on := mfip (args self) || lfip (args self) in
    NoDup (map fst (ip_counter self'))
    /\ Forall (fun item => 1 <= snd item) (ip_counter self')
    /\ (forall k, Py.counter_get (ip_counter self') k
                  = Py.counter_get (ip_counter self) k + (if on then count_ip k es else 0))
    /\ counter_total (ip_counter self')
       = counter_total (ip_counter self) + (if on then Z.of_nat (List.length es) else 0).
Proof.
  induction paths as [|path rest IH]; intros self self' H Hnd Hpos; cbv zeta.
  - injection H as <-. cbn [records_of_inputs List.length].
    repeat split; try assumption.
    + intros k. unfold count_ip. destruct (_ || _); simpl; lia.
    + destruct (_ || _); simpl; lia.
  - cbn [process_paths records_of_inputs] in H |- *.
    destruct (fs path) as [content|]; [|discriminate].
    unfold bind in H.
    destruct (process_file content self) as [[[]|x] s1] eqn:Hf; [|discriminate].
    destruct (process_file_ret _ _ _ Hf) as [Ha _].
    destruct (process_file_counter _ _ _ Hf Hnd Hpos) as [N1 [P1 [G1 T1]]].
    destruct (IH _ _ H N1 P1) as [N2 [P2 [G2 T2]]].
    rewrite Ha in G2, T2.
    repeat split; try assumption.
    + intros k. rewrite G2, G1, count_ip_app.
      destruct (mfip (args self) || lfip (args self)); lia.
    + rewrite T2, T1, length_app, Nat2Z.inj_add.
      destruct (mfip (args self) || lfip (args self)); lia.
Qed.

(** After a completed [process_logs] on a fresh processor: the entry count
    is the number of valid records of the inputs, whatever the flags; the
    keys of the counter are distinct; with an address metric requested the
    counter holds exactly the pairs (address, number of valid records with
    that address) of the addresses that occur, so its counts add up to the
    entry count; with no address metric requested the counter is empty. *)
Theorem counts_after_process_logs (fs : FileSystem) (a : Args) (self : LogProcessor) :
  process_logs fs (init a) = (Ret tt, self) ->
  let es := records_of_inputs fs (input a) in
  entries_count self = Z.of_nat (List.length es)
  /\ NoDup (map fst (ip_counter self))
  /\ (mfip a || lfip a = true ->
      (forall (ip : string) (n : Z),
         In (ip, n) (ip_counter self) <-> n = count_ip ip es /\ 1 <= n)
      /\ counter_total (ip_counter self) = entries_count self)
  /\ (mfip a || lfip a = false -> ip_counter self = []).
Proof.
  intros H. cbv zeta. unfold process_logs, bind, gets in H. cbn [init args] in H.
  destruct (process_paths_ret _ _ _ _ H) as [_ [He _]].
  assert (Hn0 : NoDup (map fst (ip_counter (init a)))) by constructor.
  assert (Hp0 : Forall (fun item => 1 <= snd item) (ip_counter (init a)))
    by constructor.
  destruct (process_paths_counter _ _ _ _ H Hn0 Hp0) as [Hnd [Hpos [Hget Htot]]].
  cbn [init args ip_counter entries_count Py.counter_get counter_total fold_right]
    in He, Hget, Htot.
  split; [lia|]. split; [exact Hnd|]. split.
  - intros Hon. rewrite Hon in Hget, Htot. split; [|lia].
    assert (Hget' : forall k,
               count_ip k (records_of_inputs fs (input a))
               = Py.counter_get (ip_counter self) k)
      by (intros k; rewrite Hget; lia).
    intros ip n. split.
    + intros Hin. rewrite Hget', (counter_get_member _ _ _ Hnd Hin).
      split; [reflexivity|].
      rewrite Forall_forall in Hpos. exact (Hpos _ Hin).
    + intros [-> Hge]. rewrite Hget' in Hge |- *.
      apply counter_get_present. lia.
  - intros Hoff. rewrite Hoff in Hget.
    destruct (ip_counter self) as [|[k v] c] eqn:Hc; [reflexivity|].
    exfalso. specialize (Hget k). simpl in Hget. rewrite String.eqb_refl in Hget.
    inversion Hpos as [|? ? Hv _]; subst. simpl in Hv. lia.
Qed.

Lemma counts_after_process_logs_witness :
  entries_count (Sample.state_after Sample.three_lines (Sample.args_scenario ["access.log"]))
  = Z.of_nat (List.length
                (records_of_inputs (Sample.one_file Sample.three_lines) ["access.log"])).
Proof.
  refine (proj1 (counts_after_process_logs
                   (Sample.one_file Sample.three_lines)
                   (Sample.args_scenario ["access.log"])
                   (Sample.state_after Sample.three_lines
                      (Sample.args_scenario ["access.log"])) _)).
  vm_compute. reflexivity.
Defined.

(** ** Fields and spacing *)

Lemma split_no_sep (sep : ascii) (s : string) :
  forall t, In t (Py.split sep s) -> contains sep t = false.
Proof.
  induction s as [|c s IH]; intros t Hin; simpl in Hin.
  - destruct Hin as [<- | []]. reflexivity.
  - destruct (Ascii.eqb c sep) eqn:E.
    + destruct Hin as [<- | Hin]; [reflexivity | exact (IH _ Hin)].
    + destruct (Py.split sep s) as [|t' ts] eqn:Hs; [destruct (split_not_nil _ _ Hs)|].
      destruct Hin as [<- | Hin].
      * simpl. rewrite E. apply IH. left. reflexivity.
      * apply IH. right. exact Hin.
Qed.

Lemma split_without_sep (sep : ascii) (t : string) :
  contains sep t = false -> Py.split sep t = [t].
Proof.
  induction t as [|c t IH]; simpl; [reflexivity|].
  intros H. apply orb_false_elim in H. destruct H as [E H].
  rewrite E, (IH H). reflexivity.
Qed.

Lemma split_app_sep (sep : ascii) (t s : string) :
  contains sep t = false ->
  Py.split sep (t ++ String sep s) = t :: Py.split sep s.
Proof.
  induction t as [|c t IH]; simpl.
  - intros _. rewrite Ascii.eqb_refl. reflexivity.
  - intros H. apply orb_false_elim in H. destruct H as [E H].
    rewrite E, (IH H). reflexivity.
Qed.

(** A field is never empty and never contains a space. *)
Lemma fields_of_shape (line t : string) :
  In t (fields_of line) -> Py.nonempty t = true /\ contains " " t = false.
Proof.
  unfold fields_of. rewrite filter_In. intros [Hin Hne].
  split; [exact Hne | exact (split_no_sep _ _ _ Hin)].
Qed.

(** Tokens joined by single spaces split back into themselves. *)
Lemma fields_of_concat (toks : list string) :
  (forall t, In t toks -> Py.nonempty t = true /\ contains " " t = false) ->
  fields_of (String.concat " " toks) = toks.
Proof.
  induction toks as [|x toks IH]; intros H; [reflexivity|].
  destruct (H x (or_introl eq_refl)) as [Hne Hns].
  destruct toks as [|y toks].
  - unfold fields_of. cbn [String.concat]. rewrite (split_without_sep _ _ Hns).
    cbn [filter]. rewrite Hne. reflexivity.
  - assert (Hc : String.concat " " (x :: y :: toks)
                 = x ++ String " " (String.concat " " (y :: toks))) by reflexivity.
    unfold fields_of. rewrite Hc, (split_app_sep _ _ _ Hns). cbn [filter].
    rewrite Hne. f_equal. apply IH. intros t Ht. apply H. right. exact Ht.
Qed.

Lemma parse_line_of_fields (l1 l2 : string) :
  fields_of l1 = fields_of l2 -> parse_line l1 = parse_line l2.
Proof. intros H. unfold parse_line. rewrite H. reflexivity. Qed.

(** The parser sees a line only through its fields: the same fields
    joined by single spaces (so without leading, trailing or repeated
    spaces) parse alike, and so does any other line with the same fields.
    The seven string fields of a record are never empty and never contain
    a space. *)
Theorem parse_line_ignores_spacing (line : string) :
  parse_line (String.concat " " (fields_of line)) = parse_line line
  /\ (forall other : string,
        fields_of other = fields_of line -> parse_line other = parse_line line)
  /\ (forall e : LogEntry,
        parse_line line = Ret (Some e) ->
        forall f, In f (string_fields e) ->
                  Py.nonempty f = true /\ contains " " f = false).
Proof.
  split; [|split].
  - apply parse_line_of_fields, fields_of_concat, fields_of_shape.
  - intros other. apply parse_line_of_fields.
  - intros e H f Hf.
    destruct (parse_line_cases line)
      as [[_ Hp] | [[_ [_ Hp]] | [Hlen [ts [rhs [rs [_ [_ [_ Hp]]]]]]]]];
      cbv zeta in *; rewrite Hp in H; try discriminate.
    injection H as <-. apply (fields_of_shape line).
    unfold string_fields in Hf. cbn in Hf.
    repeat (destruct Hf as [<- | Hf]; [apply nth_In; rewrite Hlen; lia|]).
    destruct Hf.
Qed.

(** ** Lines that are no records *)

Lemma whole_lines_tail (c : ascii) (s : string) :
  whole_lines (String c s) = true -> whole_lines s = true.
Proof.
  destruct s as [|d s]; [reflexivity|]. unfold whole_lines.
  cbn [Py.nonempty negb orb ends_with]. auto.
Qed.

Lemma whole_lines_single (c : ascii) :
  whole_lines (String c EmptyString) = true -> c = Py.LF.
Proof.
  unfold whole_lines. cbn. intros H. apply Ascii.eqb_eq in H. exact H.
Qed.

Lemma whole_lines_cons_LF (u : string) :
  whole_lines u = true -> whole_lines (String Py.LF u) = true.
Proof. destruct u; [reflexivity|]. unfold whole_lines. cbn. auto. Qed.

Lemma whole_lines_cons (c : ascii) (u : string) :
  Py.nonempty u = true -> whole_lines u = true -> whole_lines (String c u) = true.
Proof. destruct u; [discriminate|]. unfold whole_lines. cbn. auto. Qed.

Lemma universal_newlines_nonempty (s : string) :
  Py.nonempty s = true -> Py.nonempty (Py.universal_newlines s) = true.
Proof.
  destruct s as [|c s]; [discriminate|]. intros _. simpl.
  destruct (Ascii.eqb c Py.CR); reflexivity.
Qed.

Lemma universal_newlines_CR_LF (s : string) :
  Py.universal_newlines (String Py.CR (String Py.LF s))
  = String Py.LF (Py.universal_newlines s).
Proof. reflexivity. Qed.

Lemma universal_newlines_CR (d : ascii) (s : string) :
  Ascii.eqb d Py.LF = false ->
  Py.universal_newlines (String Py.CR (String d s))
  = String Py.LF (Py.universal_newlines (String d s)).
Proof.
  intros H. cbn [Py.universal_newlines]. rewrite Ascii.eqb_refl, H. reflexivity.
Qed.

Lemma universal_newlines_other (c : ascii) (s : string) :
  Ascii.eqb c Py.CR = false ->
  Py.universal_newlines (String c s) = String c (Py.universal_newlines s).
Proof. intros H. cbn [Py.universal_newlines]. rewrite H. reflexivity. Qed.

(** The translation of newlines distributes over a text of whole lines
    followed by any text, and keeps whole lines whole. *)
Lemma universal_newlines_app_bounded (n : nat) :
  forall c1 c2 : string,
    (String.length c1 <= n)%nat ->
    whole_lines c1 = true ->
    Py.universal_newlines (c1 ++ c2)
    = Py.universal_newlines c1 ++ Py.universal_newlines c2
    /\ whole_lines (Py.universal_newlines c1) = true.
Proof.
  induction n as [|n IH]; intros c1 c2 Hlen Hw.
  - destruct c1; [split; reflexivity | simpl in Hlen; lia].
  - destruct c1 as [|c c1]; [split; reflexivity|].
    simpl in Hlen. pose proof (whole_lines_tail _ _ Hw) as Hw1.
    change (String c c1 ++ c2) with (String c (c1 ++ c2)).
    destruct (Ascii.eqb c Py.CR) eqn:Ec.
    + apply Ascii.eqb_eq in Ec. subst c.
      destruct c1 as [|d c1]; [apply whole_lines_single in Hw; discriminate|].
      change (String d c1 ++ c2) with (String d (c1 ++ c2)).
      destruct (Ascii.eqb d Py.LF) eqn:Ed.
      * apply Ascii.eqb_eq in Ed. subst d.
        pose proof (whole_lines_tail _ _ Hw1) as Hw2.
        rewrite !universal_newlines_CR_LF.
        destruct (IH c1 c2) as [H1 H2]; [simpl in Hlen; lia | exact Hw2 |].
        rewrite H1. split; [reflexivity | apply whole_lines_cons_LF, H2].
      * rewrite !(universal_newlines_CR _ _ Ed).
        destruct (IH (String d c1) c2) as [H1 H2]; [lia | exact Hw1 |].
        change (String d c1 ++ c2) with (String d (c1 ++ c2)) in H1.
        rewrite H1. split; [reflexivity | apply whole_lines_cons_LF, H2].
    + rewrite !(universal_newlines_other _ _ Ec).
      destruct (IH c1 c2) as [H1 H2]; [lia | exact Hw1 |].
      rewrite H1. split; [reflexivity|].
      destruct c1 as [|d c1].
      * apply whole_lines_single in Hw. subst c. reflexivity.
      * apply whole_lines_cons; [|exact H2].
        apply universal_newlines_nonempty. reflexivity.
Qed.

Lemma keepends_app (s1 s2 : string) :
  forall cur : string,
    Py.nonempty s1 = true ->
    whole_lines s1 = true ->
    Py.keepends cur (s1 ++ s2)
    = (Py.keepends cur s1 ++ Py.keepends EmptyString s2)%list.
Proof.
  induction s1 as [|c s1 IH]; intros cur Hne Hw; [discriminate|].
  destruct s1 as [|d s1].
  - apply whole_lines_single in Hw. subst c. reflexivity.
  - pose proof (whole_lines_tail _ _ Hw) as Hw1.
    cbn [append Py.keepends].
    destruct (Ascii.eqb c Py.LF).
    + cbn [app]. f_equal. apply (IH EmptyString eq_refl Hw1).
    + apply (IH _ eq_refl Hw1).
Qed.

(** The lines of a text of whole lines followed by any text are the lines
    of the one followed by the lines of the other. *)
Lemma readlines_app (c1 c2 : string) :
  whole_lines c1 = true ->
  Py.readlines (c1 ++ c2) = (Py.readlines c1 ++ Py.readlines c2)%list.
Proof.
  intros Hw. unfold Py.readlines.
  destruct (universal_newlines_app_bounded (String.length c1) c1 c2 (le_n _) Hw)
    as [H1 H2].
  rewrite H1.
  destruct (Py.universal_newlines c1) as [|c u] eqn:U; [reflexivity|].
  apply keepends_app; [reflexivity | exact H2].
Qed.

Lemma scan_app (a : Args) (l1 l2 : list string) :
  forall loc : Local,
    scan a loc (l1 ++ l2)
    = (loc1 <- scan a loc l1 ;; scan a loc1 l2)%outcome.
Proof.
  induction l1 as [|line l1 IH]; intros loc; [reflexivity|].
  cbn [app scan]. destruct (parse_line line) as [[e|]|x]; cbn [obind]; auto.
Qed.

Lemma scan_no_records (a : Args) (lines : list string) (loc : Local) :
  (forall line, In line lines -> parse_line line = Ret None) ->
  scan a loc lines = Ret loc.
Proof.
  intros H. rewrite scan_total.
  - rewrite (records_none _ H). reflexivity.
  - intros line Hin x Hx. rewrite (H line Hin) in Hx. discriminate.
Qed.

(** Whole lines that are no records can be taken out of a file, wherever
    they stand, without any effect on what [process_file] does: the same
    outcome and the same state. *)
Theorem invalid_lines_are_skipped
    (before junk after : string) (self : LogProcessor) :
  whole_lines before = true ->
  whole_lines junk = true ->
  (forall line, In line (Py.readlines junk) -> parse_line line = Ret None) ->
  process_file (before ++ junk ++ after) self = process_file (before ++ after) self.
Proof.
  intros Hb Hj Hnone. rewrite !process_file_eq.
  rewrite (readlines_app before (junk ++ after) Hb), (readlines_app junk after Hj),
    (readlines_app before after Hb).
  rewrite !(scan_app _ (Py.readlines before)).
  destruct (scan (args self) local_init (Py.readlines before)) as [loc|x];
    cbn [obind]; [|reflexivity].
  rewrite scan_app, (scan_no_records _ _ _ Hnone). reflexivity.
Qed.

Lemma invalid_lines_are_skipped_witness :
  process_file (Sample.single_entry ++ Sample.malformed ++ Sample.single_entry)
    (init (Sample.args_scenario []))
  = process_file (Sample.single_entry ++ Sample.single_entry)
      (init (Sample.args_scenario [])).
Proof.
  refine (invalid_lines_are_skipped Sample.single_entry Sample.malformed
            Sample.single_entry (init (Sample.args_scenario [])) _ _ _).
  - vm_compute. reflexivity.
  - vm_compute. reflexivity.
  - intros line Hin. vm_compute in Hin.
    destruct Hin as [<- | [<- | [<- | []]]]; vm_compute; reflexivity.
Defined.

(** ** The two bounds are the extremes of the timestamps *)

Ltac compare_cases :=
  repeat match goal with
         | H : context [Pos.compare_cont Eq ?a ?b] |- _ =>
             change (Pos.compare_cont Eq a b) with (Pos.compare a b) in H
         | |- context [Pos.compare_cont Eq ?a ?b] =>
             change (Pos.compare_cont Eq a b) with (Pos.compare a b)
         end;
  repeat match goal with
         | H : context [Z.compare ?a ?b] |- _ =>
             destruct (Z.compare_spec a b); try discriminate H
         | H : context [Pos.compare ?a ?b] |- _ =>
             destruct (Pos.compare_spec a b); try discriminate H
         | |- context [Z.compare ?a ?b] => destruct (Z.compare_spec a b)
         | |- context [Pos.compare ?a ?b] => destruct (Pos.compare_spec a b)
         end.

(** [<] on floats is transitive and irreflexive, and on floats other than
    NaN its complement is transitive too. *)
Lemma flt_trans (a b c : Py.binary64) :
  Py.flt a b = true -> Py.flt b c = true -> Py.flt a c = true.
Proof.
  unfold Py.flt, SFltb, SFcompare.
  destruct a as [sa|sa| |sa ma ea], b as [sb|sb| |sb mb eb], c as [sc|sc| |sc mc ec];
    try destruct sa; try destruct sb; try destruct sc;
    intros H1 H2; try discriminate; try reflexivity;
    compare_cases; subst; try reflexivity; try lia.
Qed.

Lemma flt_irrefl (a : Py.binary64) : Py.flt a a = false.
Proof.
  unfold Py.flt, SFltb, SFcompare.
  destruct a as [sa|sa| |sa ma ea]; try destruct sa; try reflexivity;
    compare_cases; subst; try reflexivity; try lia.
Qed.

Lemma flt_negtrans (a b c : Py.binary64) :
  not_nan a = true -> not_nan b = true -> not_nan c = true ->
  Py.flt a b = false -> Py.flt b c = false -> Py.flt a c = false.
Proof.
  unfold Py.flt, SFltb, SFcompare.
  destruct a as [sa|sa| |sa ma ea], b as [sb|sb| |sb mb eb], c as [sc|sc| |sc mc ec];
    try destruct sa; try destruct sb; try destruct sc;
    intros Na Nb Nc H1 H2; try discriminate; try reflexivity;
    compare_cases; subst; try reflexivity; try lia.
Qed.

Section Extremes.

(** A comparison as [<] or [>]: transitive, irreflexive, and with a
    transitive complement away from NaN. *)
Variable before : Py.binary64 -> Py.binary64 -> bool.
Hypothesis before_trans :
  forall a b c, before a b = true -> before b c = true -> before a c = true.
Hypothesis before_irrefl : forall a, before a a = false.
Hypothesis before_negtrans :
  forall a b c,
    not_nan a = true -> not_nan b = true -> not_nan c = true ->
    before a b = false -> before b c = false -> before a c = false.

(** One more value [t], kept when the bound is unset or [t] comes before
    it: the step of the scan loop. *)
Lemma extreme_step (bound : option Py.binary64) (ts : list Py.binary64)
    (t : Py.binary64) :
  extreme_of before bound ts ->
  extreme_of before
    (if match bound with None => true | Some m => before t m end
     then Some t else bound)
    (ts ++ [t]).
Proof.
  unfold extreme_of. destruct bound as [m|].
  - intros [Hin Hall]. destruct (before t m) eqn:B.
    + split; [apply in_or_app; right; left; reflexivity|].
      intros u Hu. apply in_app_or in Hu. destruct Hu as [Hu | [<- | []]].
      * destruct (before u t) eqn:U; [|reflexivity].
        pose proof (Hall u Hu) as Hc.
        rewrite (before_trans _ _ _ U B) in Hc. discriminate Hc.
      * apply before_irrefl.
    + split; [apply in_or_app; left; exact Hin|].
      intros u Hu. apply in_app_or in Hu. destruct Hu as [Hu | [<- | []]];
        [exact (Hall u Hu) | exact B].
  - intros ->. split; [left; reflexivity|].
    intros u [<- | []]. apply before_irrefl.
Qed.

(** The bound of a file against the shared bound: the step of the merge,
    for a local bound that is set whenever the shared one is. *)
Lemma extreme_merge (shared loc : option Py.binary64) (ts us : list Py.binary64) :
  (forall t, In t (ts ++ us) -> not_nan t = true) ->
  extreme_of before shared ts ->
  extreme_of before loc us ->
  extreme_of before
    match shared, loc with
    | Some s, Some l => if before l s then Some l else Some s
    | Some s, None => Some s
    | None, l => l
    end
    (ts ++ us).
Proof.
  unfold extreme_of. intros Hnan Hs Hl.
  destruct shared as [s|]; [|subst ts; exact Hl].
  destruct Hs as [Hsin Hsall]. destruct loc as [l|].
  - destruct Hl as [Hlin Hlall]. destruct (before l s) eqn:B.
    + split; [apply in_or_app; right; exact Hlin|].
      intros u Hu. apply in_app_or in Hu. destruct Hu as [Hu | Hu]; [|exact (Hlall u Hu)].
      destruct (before u l) eqn:U; [|reflexivity].
      pose proof (Hsall u Hu) as Hc.
      rewrite (before_trans _ _ _ U B) in Hc. discriminate Hc.
    + split; [apply in_or_app; left; exact Hsin|].
      intros u Hu. apply in_app_or in Hu. destruct Hu as [Hu | Hu]; [exact (Hsall u Hu)|].
      apply (before_negtrans u l s); try (apply Hnan, in_or_app; auto; fail);
        [exact (Hlall u Hu) | exact B].
  - subst us. rewrite app_nil_r. split; assumption.
Qed.

End Extremes.

Lemma fgt_trans (a b c : Py.binary64) :
  Py.fgt a b = true -> Py.fgt b c = true -> Py.fgt a c = true.
Proof. unfold Py.fgt. intros H1 H2. exact (flt_trans _ _ _ H2 H1). Qed.

Lemma fgt_irrefl (a : Py.binary64) : Py.fgt a a = false.
Proof. apply flt_irrefl. Qed.

Lemma fgt_negtrans (a b c : Py.binary64) :
  not_nan a = true -> not_nan b = true -> not_nan c = true ->
  Py.fgt a b = false -> Py.fgt b c = false -> Py.fgt a c = false.
Proof.
  unfold Py.fgt. intros Na Nb Nc H1 H2. exact (flt_negtrans _ _ _ Nc Nb Na H2 H1).
Qed.

(** The local bounds after a scan are extremes of the timestamps seen. *)
Lemma count_entries_bounds (a : Args) (es : list LogEntry) :
  eps a = true ->
  forall (loc : Local) (ts : list Py.binary64),
    extreme_of Py.flt (local_earliest_timestamp loc) ts ->
    extreme_of Py.fgt (local_latest_timestamp loc) ts ->
    let loc' := fold_left (count_entry a) es loc in
    extreme_of Py.flt (local_earliest_timestamp loc') (ts ++ map timestamp es)
    /\ extreme_of Py.fgt (local_latest_timestamp loc') (ts ++ map timestamp es).
Proof.
  intros He. induction es as [|e es IH]; intros loc ts H1 H2; cbv zeta.
  - cbn [fold_left map]. rewrite app_nil_r. auto.
  - cbn [fold_left map].
    replace (ts ++ timestamp e :: map timestamp es)%list
      with ((ts ++ [timestamp e]) ++ map timestamp es)%list
      by (rewrite <- app_assoc; reflexivity).
    apply IH; cbn [count_entry local_earliest_timestamp local_latest_timestamp];
      rewrite He; cbn [andb].
    + exact (extreme_step Py.flt flt_trans flt_irrefl _ _ (timestamp e) H1).
    + exact (extreme_step Py.fgt fgt_trans fgt_irrefl _ _ (timestamp e) H2).
Qed.

(** The two bounds after a merge that returned, with events per second
    requested. *)
Lemma merge_ret_bounds (loc : Local) (self : LogProcessor) :
  eps (args self) = true ->
  fst (merge loc self) = Ret tt ->
  earliest_timestamp (snd (merge loc self))
  = match earliest_timestamp self, local_earliest_timestamp loc with
    | Some s, Some l => if Py.flt l s then Some l else Some s
    | Some s, None => Some s
    | None, l => l
    end
  /\ latest_timestamp (snd (merge loc self))
     = match latest_timestamp self, local_latest_timestamp loc with
       | Some s, Some l => if Py.fgt l s then Some l else Some s
       | Some s, None => Some s
       | None, l => l
       end.
Proof.
  destruct self as [a c e l n b], loc as [lc ln lb le ll].
  unfold merge, bind, gets, modify, when, is_none_or, lift, ret. cbn.
  intros ->. destruct e, l, le, ll; cbn; split_ifs;
    intros H; try discriminate H; split; reflexivity.
Qed.

Lemma process_file_bounds (content : string) (self self' : LogProcessor)
    (ts : list Py.binary64) :
  eps (args self) = true ->
  process_file content self = (Ret tt, self') ->
  let us := map timestamp (records (Py.readlines content)) in
  (forall t, In t (ts ++ us) -> not_nan t = true) ->
  extreme_of Py.flt (earliest_timestamp self) ts ->
  extreme_of Py.fgt (latest_timestamp self) ts ->
  extreme_of Py.flt (earliest_timestamp self') (ts ++ us)
  /\ extreme_of Py.fgt (latest_timestamp self') (ts ++ us).
Proof.
  intros He. rewrite process_file_eq. cbv zeta.
  destruct (scan (args self) local_init (Py.readlines content)) as [loc|x] eqn:Hs;
    [|discriminate].
  intros Hm Hnan H1 H2.
  assert (Hret : fst (merge loc self) = Ret tt) by (rewrite Hm; reflexivity).
  destruct (merge_ret_bounds loc self He Hret) as [E1 E2].
  rewrite Hm in E1, E2. cbn [snd] in E1, E2. rewrite E1, E2.
  destruct (count_entries_bounds (args self) (records (Py.readlines content)) He
              local_init [] eq_refl eq_refl) as [L1 L2].
  cbv zeta in L1, L2. cbn [app] in L1, L2.
  rewrite <- (scan_ret _ _ _ _ Hs) in L1, L2.
  split.
  - exact (extreme_merge Py.flt flt_trans flt_negtrans _ _ _ _ Hnan H1 L1).
  - exact (extreme_merge Py.fgt fgt_trans fgt_negtrans _ _ _ _ Hnan H2 L2).
Qed.

Lemma process_paths_bounds (fs : FileSystem) (paths : list string) :
  forall (self self' : LogProcessor) (ts : list Py.binary64),
    eps (args self) = true ->
    process_paths fs paths self = (Ret tt, self') ->
    let us := map timestamp (records_of_inputs fs paths) in
    (forall t, In t (ts ++ us) -> not_nan t = true) ->
    extreme_of Py.flt (earliest_timestamp self) ts ->
    extreme_of Py.fgt (latest_timestamp self) ts ->
    extreme_of Py.flt (earliest_timestamp self') (ts ++ us)
    /\ extreme_of Py.fgt (latest_timestamp self') (ts ++ us).
Proof.
  induction paths as [|path rest IH]; intros self self' ts He H; cbv zeta.
  - injection H as <-. cbn [records_of_inputs map]. rewrite app_nil_r. auto.
  - cbn [process_paths records_of_inputs] in H |- *.
    destruct (fs path) as [content|]; [|discriminate].
    unfold bind in H.
    destruct (process_file content self) as [[[]|x] s1] eqn:Hf; [|discriminate].
    rewrite map_app, app_assoc. intros Hnan H1 H2.
    destruct (process_file_ret _ _ _ Hf) as [Ha _].
    destruct (process_file_bounds content self s1 ts He Hf) as [B1 B2];
      [intros t Ht; apply Hnan, in_or_app; left; exact Ht | exact H1 | exact H2 |].
    apply (IH s1 self' _); [rewrite Ha; exact He | exact H | exact Hnan | exact B1 | exact B2].
Qed.

Lemma process_paths_bounds_without_eps (fs : FileSystem) (paths : list string) :
  forall self : LogProcessor,
    eps (args self) = false ->
    earliest_timestamp (snd (process_paths fs paths self)) = earliest_timestamp self
    /\ latest_timestamp (snd (process_paths fs paths self)) = latest_timestamp self.
Proof.
  induction paths as [|path rest IH]; intros self He; [split; reflexivity|].
  cbn [process_paths]. destruct (fs path) as [content|]; [|split; reflexivity].
  unfold bind. rewrite (process_file_without_eps _ _ He).
  destruct (scan (args self) local_init (Py.readlines content)) as [loc|x];
    [|split; reflexivity].
  match goal with |- context [process_paths fs rest ?s] => apply (IH s) end.
  exact He.
Qed.

(** After a completed [process_logs] on a fresh processor.  Without
    events per second the two bounds are unset.  With events per second,
    and no NaN among the timestamps of the valid records: the bounds are
    unset when there is no valid record, and otherwise the earliest bound
    is the timestamp of a record that no record precedes, and the latest
    bound the timestamp of a record that no record follows. *)
Theorem bounds_are_extreme_timestamps
    (fs : FileSystem) (a : Args) (self : LogProcessor) :
  process_logs fs (init a) = (Ret tt, self) ->
  let ts := map timestamp (records_of_inputs fs (input a)) in
  (eps a = false ->
   earliest_timestamp self = None /\ latest_timestamp self = None)
  /\ (eps a = true ->
      (forall t, In t ts -> not_nan t = true) ->
      (ts = [] -> earliest_timestamp self = None /\ latest_timestamp self = None)
      /\ (ts <> [] ->
          exists e l : Py.binary64,
            earliest_timestamp self = Some e
            /\ latest_timestamp self = Some l
            /\ In e ts /\ In l ts
            /\ forall t, In t ts -> Py.flt t e = false /\ Py.flt l t = false)).
Proof.
  intros H. cbv zeta. unfold process_logs, bind, gets in H. cbn [init args] in H.
  split.
  - intros He.
    pose proof (process_paths_bounds_without_eps fs (input a) (init a) He) as B.
    rewrite H in B. exact B.
  - intros He Hnan.
    destruct (process_paths_bounds fs (input a) (init a) self [] He H Hnan
                eq_refl eq_refl) as [B1 B2].
    cbn [app] in B1, B2. unfold extreme_of in B1, B2.
    destruct (earliest_timestamp self) as [e|], (latest_timestamp self) as [l|].
    + destruct B1 as [I1 A1], B2 as [I2 A2]. split.
      * intros E. rewrite E in I1. destruct I1.
      * intros _. exists e, l. do 2 (split; [reflexivity|]).
        do 2 (split; [assumption|]).
        intros t Ht. split; [exact (A1 t Ht) | exact (A2 t Ht)].
    + destruct B1 as [I1 _]. rewrite B2 in I1. destruct I1.
    + destruct B2 as [I2 _]. rewrite B1 in I2. destruct I2.
    + split; [auto | intros N; contradiction].
Qed.

Lemma bounds_are_extreme_timestamps_witness :
  let self := Sample.state_after Sample.three_lines (Sample.args_scenario ["access.log"]) in
  let ts := map timestamp
              (records_of_inputs (Sample.one_file Sample.three_lines) ["access.log"]) in
  (ts = [] -> earliest_timestamp self = None /\ latest_timestamp self = None)
  /\ (ts <> [] ->
      exists e l : Py.binary64,
        earliest_timestamp self = Some e
        /\ latest_timestamp self = Some l
        /\ In e ts /\ In l ts
        /\ forall t, In t ts -> Py.flt t e = false /\ Py.flt l t = false).
Proof.
  refine (proj2 (bounds_are_extreme_timestamps
                   (Sample.one_file Sample.three_lines)
                   (Sample.args_scenario ["access.log"])
                   (Sample.state_after Sample.three_lines
                      (Sample.args_scenario ["access.log"])) _) eq_refl _).
  - vm_compute. reflexivity.
  - intros t Ht. vm_compute in Ht.
    destruct Ht as [<- | [<- | [<- | []]]]; reflexivity.
Defined.

(** ** When process_file raises *)

Lemma scan_ret_no_raise (a : Args) (lines : list string) :
  forall loc loc' : Local,
    scan a loc lines = Ret loc' ->
    forall line, In line lines -> forall x, parse_line line <> Raise x.
Proof.
  induction lines as [|l rest IH]; intros loc loc' H line Hin x Hx; [destruct Hin|].
  cbn [scan] in H. destruct Hin as [<- | Hin].
  - rewrite Hx in H. discriminate.
  - destruct (parse_line l) as [[e|]|y]; cbn [obind] in H; try discriminate;
      exact (IH _ _ H line Hin x Hx).
Qed.

Lemma scan_raises (a : Args) (lines : list string) :
  forall (loc : Local) (line : string) (x : exn),
    In line lines -> parse_line line = Raise x ->
    exists y, scan a loc lines = Raise y.
Proof.
  induction lines as [|l rest IH]; intros loc line x Hin Hx; [destruct Hin|].
  cbn [scan]. destruct Hin as [<- | Hin].
  - rewrite Hx. eexists. reflexivity.
  - destruct (parse_line l) as [[e|]|y]; cbn [obind];
      try exact (IH _ line x Hin Hx).
    eexists. reflexivity.
Qed.

Lemma merge_raise_iff (loc : Local) (self : LogProcessor) :
  fst (merge loc self) = Raise TypeError <->
  eps (args self) = true
  /\ ((earliest_timestamp self <> None /\ local_earliest_timestamp loc = None)
      \/ (latest_timestamp self <> None /\ local_latest_timestamp loc = None)).
Proof.
  destruct self as [a c e l n b], loc as [lc ln lb le ll].
  unfold merge, bind, gets, modify, when, is_none_or, lift, ret. cbn.
  destruct (eps a); [destruct e, l, le, ll; cbn; split_ifs | cbn].
  all: split.
  all: try discriminate.
  all: try (intros [Hx [[H1 H2] | [H1 H2]]]; try discriminate; try congruence;
            reflexivity).
  all: try (intros _; split; [reflexivity|]).
  all: try (left; split; [discriminate | reflexivity]).
  all: try (right; split; [discriminate | reflexivity]).
Qed.

(** The local bounds of a scan are unset exactly when the file had no
    valid record (with events per second requested). *)
Lemma scan_bounds_unset (a : Args) (lines : list string) (loc : Local) :
  eps a = true ->
  scan a local_init lines = Ret loc ->
  (local_earliest_timestamp loc = None <-> records lines = [])
  /\ (local_latest_timestamp loc = None <-> records lines = []).
Proof.
  intros He Hs.
  destruct (count_entries_bounds a (records lines) He local_init [] eq_refl eq_refl)
    as [L1 L2].
  cbv zeta in L1, L2. cbn [app] in L1, L2. rewrite <- (scan_ret _ _ _ _ Hs) in L1, L2.
  unfold extreme_of in L1, L2.
  assert (Hmap : forall es : list LogEntry, map timestamp es = [] <-> es = []).
  { intros [|e es]; split; intros H; try reflexivity; discriminate. }
  split.
  - destruct (local_earliest_timestamp loc) as [m|].
    + split; [discriminate|]. intros E. rewrite E in L1. destruct L1 as [[] _].
    + split; [intros _; apply Hmap, L1 | reflexivity].
  - destruct (local_latest_timestamp loc) as [m|].
    + split; [discriminate|]. intros E. rewrite E in L2. destruct L2 as [[] _].
    + split; [intros _; apply Hmap, L2 | reflexivity].
Qed.

(** [process_file] from the point where the file was opened and read as
    the text [content]: opening the path, at line 128, is not part of the
    statement.  The scan and the merge raise [ValueError] exactly when some
    line of the text has 10 fields of which a number does not parse, and
    the processor is then untouched.  They raise [TypeError] exactly when
    events per second is requested, every line parses, the text holds no
    valid record, and a bound of the processor is already set.  They raise
    nothing else. *)
Theorem process_file_outcomes (content : string) (self : LogProcessor) :
  let lines := Py.readlines content in
  (fst (process_file content self) = Raise ValueError <->
   exists line, In line lines /\ parse_line line = Raise ValueError)
  /\ (fst (process_file content self) = Raise ValueError ->
      snd (process_file content self) = self)
  /\ (fst (process_file content self) = Raise TypeError <->
      eps (args self) = true
      /\ (forall line, In line lines -> forall x, parse_line line <> Raise x)
      /\ records lines = []
      /\ (earliest_timestamp self <> None \/ latest_timestamp self <> None))
  /\ (forall x : exn,
        fst (process_file content self) = Raise x -> x = ValueError \/ x = TypeError).
Proof.
  cbv zeta. split; [|split; [|split]].
  - rewrite process_file_eq. split.
    + destruct (scan (args self) local_init (Py.readlines content)) as [loc|x] eqn:Hs.
      * intros H. apply merge_raise in H. destruct H as [H _]. discriminate.
      * intros _. pose proof (scan_raise_ValueError _ _ _ _ Hs). subst x.
        exact (scan_raise _ _ _ _ Hs).
    + intros [line [Hin Hx]].
      destruct (scan_raises (args self) _ local_init line _ Hin Hx) as [y Hy].
      rewrite Hy. pose proof (scan_raise_ValueError _ _ _ _ Hy). subst y. reflexivity.
  - rewrite process_file_eq.
    destruct (scan (args self) local_init (Py.readlines content)) as [loc|x] eqn:Hs;
      [|reflexivity].
    intros H. apply merge_raise in H. destruct H as [H _]. discriminate.
  - rewrite process_file_eq.
    destruct (scan (args self) local_init (Py.readlines content)) as [loc|x] eqn:Hs.
    + rewrite merge_raise_iff. split.
      * intros [He Hb]. destruct (scan_bounds_unset _ _ _ He Hs) as [U1 U2].
        split; [exact He|]. split; [exact (scan_ret_no_raise _ _ _ _ Hs)|].
        destruct Hb as [[Hset Hl] | [Hset Hl]].
        -- split; [apply U1, Hl | left; exact Hset].
        -- split; [apply U2, Hl | right; exact Hset].
      * intros [He [_ [Hr Hset]]]. destruct (scan_bounds_unset _ _ _ He Hs) as [U1 U2].
        split; [exact He|].
        destruct Hset as [Hset | Hset]; [left | right]; split; try exact Hset.
        -- apply U1, Hr.
        -- apply U2, Hr.
    + cbn [fst]. split.
      * intros H. injection H as ->.
        pose proof (scan_raise_ValueError _ _ _ _ Hs). discriminate.
      * intros [_ [Hok _]]. destruct (scan_raise _ _ _ _ Hs) as [line [Hin Hx]].
        destruct (Hok line Hin x Hx).
  - intros x. apply process_file_raise.
Qed.

(** ** The events-per-second value of a run *)

Lemma eps_value_ret (self : LogProcessor) (v : Py.binary64) :
  fst (eps_value self) = Ret v ->
  exists e l n : Py.binary64,
    entries_count self <> 0
    /\ earliest_timestamp self = Some e
    /\ latest_timestamp self = Some l
    /\ Py.fnot e = false /\ Py.fnot l = false
    /\ Py.fnot (Py.fsub l e) = false
    /\ Py.float_of_int (entries_count self) = Ret n
    /\ Py.round (SFdiv Py.prec Py.emax n (Py.fsub l e)) 2 = Ret v.
Proof.
  unfold eps_value, bind, gets, raise, lift.
  destruct (entries_count self =? 0)%Z eqn:N; cbn [fst]; [discriminate|].
  apply Z.eqb_neq in N.
  destruct (earliest_timestamp self) as [e|], (latest_timestamp self) as [l|];
    cbn [not_opt orb sub_opt]; rewrite ?orb_true_r; try (cbn; discriminate).
  destruct (Py.fnot e) eqn:Fe; [cbn; discriminate|].
  destruct (Py.fnot l) eqn:Fl; [cbn; discriminate|]. cbn [orb].
  unfold Py.truediv.
  destruct (Py.float_of_int (entries_count self)) as [n|y] eqn:Fn; cbn [obind];
    [|cbn; discriminate].
  destruct (Py.fnot (Py.fsub l e)) eqn:Fs; [cbn; discriminate|].
  destruct (Py.round (SFdiv Py.prec Py.emax n (Py.fsub l e)) 2) as [w|y] eqn:R;
    cbn [fst]; [|discriminate].
  intros H. injection H as <-. exists e, l, n. auto 10.
Qed.

(** The events-per-second value of a completed run whose valid records
    carry no NaN timestamp: the number of valid records, divided by the
    difference between a latest and an earliest timestamp of the records,
    rounded to two decimals; neither of the two timestamps nor their
    difference is zero. *)
Theorem eps_of_a_run (fs : FileSystem) (a : Args) (r : Results) (self : LogProcessor) :
  eps a = true ->
  run fs a = (Ret r, self) ->
  let es := records_of_inputs fs (input a) in
  let ts := map timestamp es in
  (forall t, In t ts -> not_nan t = true) ->
  exists e l n v : Py.binary64,
    In e ts /\ In l ts
    /\ (forall t, In t ts -> Py.flt t e = false /\ Py.flt l t = false)
    /\ Py.fnot e = false /\ Py.fnot l = false /\ Py.fnot (Py.fsub l e) = false
    /\ Py.float_of_int (Z.of_nat (List.length es)) = Ret n
    /\ Py.round (SFdiv Py.prec Py.emax n (Py.fsub l e)) 2 = Ret v
    /\ result_eps r = Some v.
Proof.
  intros He Hrun. cbv zeta. intros Hnan.
  unfold run, bind in Hrun.
  destruct (process_logs fs (init a)) as [[[]|x] s1] eqn:Hp; [|discriminate].
  assert (Hp' : process_paths fs (input a) (init a) = (Ret tt, s1)) by exact Hp.
  destruct (process_paths_ret _ _ _ _ Hp') as [Ha [Hn _]].
  cbn [init args entries_count] in Ha, Hn.
  destruct (process_paths_bounds fs (input a) (init a) s1 [] He Hp' Hnan
              eq_refl eq_refl) as [B1 B2].
  cbn [app] in B1, B2.
  rewrite get_results_eq in Hrun. cbv zeta in Hrun. rewrite Ha, He in Hrun.
  destruct (fst (eps_value s1)) as [v|y] eqn:Ev; [|discriminate].
  destruct (eps_value_ret _ _ Ev) as [e [l [n [_ [E1 [E2 [F1 [F2 [F3 [Fn R]]]]]]]]]].
  rewrite E1 in B1. rewrite E2 in B2. destruct B1 as [I1 A1], B2 as [I2 A2].
  exists e, l, n, v. do 2 (split; [assumption|]).
  split; [intros t Ht; split; [exact (A1 t Ht) | exact (A2 t Ht)]|].
  do 3 (split; [assumption|]).
  split; [rewrite <- Fn; f_equal; lia|]. split; [exact R|].
  injection Hrun as <- _. destruct (mfip a), (lfip a), (bytes a); reflexivity.
Qed.

Lemma eps_of_a_run_witness :
  exists e l n v : Py.binary64,
    In e (map timestamp
            (records_of_inputs (Sample.one_file Sample.three_lines) ["access.log"]))
    /\ In l (map timestamp
               (records_of_inputs (Sample.one_file Sample.three_lines) ["access.log"]))
    /\ (forall t,
          In t (map timestamp
                  (records_of_inputs (Sample.one_file Sample.three_lines) ["access.log"])) ->
          Py.flt t e = false /\ Py.flt l t = false)
    /\ Py.fnot e = false /\ Py.fnot l = false /\ Py.fnot (Py.fsub l e) = false
    /\ Py.float_of_int
         (Z.of_nat
            (List.length
               (records_of_inputs (Sample.one_file Sample.three_lines) ["access.log"])))
       = Ret n
    /\ Py.round (SFdiv Py.prec Py.emax n (Py.fsub l e)) 2 = Ret v
    /\ result_eps
         {| result_mfip := Some (Some ("10.0.0.1", 2));
            result_lfip := None;
            result_eps := Some Sample.one_and_a_half;
            result_bytes := Some 1850 |}
       = Some v.
Proof.
  refine (eps_of_a_run (Sample.one_file Sample.three_lines)
            (Sample.args_scenario ["access.log"]) _
            (Sample.state_after Sample.three_lines (Sample.args_scenario ["access.log"]))
            eq_refl _ _).
  - vm_compute. reflexivity.
  - intros t Ht. vm_compute in Ht.
    destruct Ht as [<- | [<- | [<- | []]]]; reflexivity.
Defined.

(** ** main and the output file *)






(** ** With events per second: when a run raises TypeError *)

(** With events per second requested, the bounds of the processor are set
    exactly when a valid record was seen. *)
Lemma process_file_bounds_set (content : string) (self self' : LogProcessor)
    (es : list LogEntry) :
  eps (args self) = true ->
  process_file content self = (Ret tt, self') ->
  (earliest_timestamp self = None <-> es = []) ->
  (latest_timestamp self = None <-> es = []) ->
  let es' := (es ++ records (Py.readlines content))%list in
  (earliest_timestamp self' = None <-> es' = [])
  /\ (latest_timestamp self' = None <-> es' = []).
Proof.
  intros He. rewrite process_file_eq. cbv zeta.
  destruct (scan (args self) local_init (Py.readlines content)) as [loc|x] eqn:Hs;
    [|discriminate].
  intros Hm J1 J2.
  assert (Hret : fst (merge loc self) = Ret tt) by (rewrite Hm; reflexivity).
  destruct (merge_ret_bounds loc self He Hret) as [E1 E2].
  rewrite Hm in E1, E2. cbn [snd] in E1, E2.
  destruct (scan_bounds_unset _ _ _ He Hs) as [U1 U2].
  assert (Happ : forall l1 l2 : list LogEntry,
             (l1 ++ l2 = [] <-> l1 = [] /\ l2 = [])%list).
  { intros l1 l2. split; [apply app_eq_nil | intros [-> ->]; reflexivity]. }
  rewrite E1, E2, Happ. split.
  - destruct (earliest_timestamp self) as [s|].
    + assert (es <> []) by (intros E; apply J1 in E; discriminate).
      destruct (local_earliest_timestamp loc) as [l|]; [destruct (Py.flt l s)|];
        (split; [discriminate | intros [E _]; contradiction]).
    + assert (es = []) by (apply J1; reflexivity).
      rewrite U1. tauto.
  - destruct (latest_timestamp self) as [s|].
    + assert (es <> []) by (intros E; apply J2 in E; discriminate).
      destruct (local_latest_timestamp loc) as [l|]; [destruct (Py.fgt l s)|];
        (split; [discriminate | intros [E _]; contradiction]).
    + assert (es = []) by (apply J2; reflexivity).
      rewrite U2. tauto.
Qed.

Lemma process_paths_bounds_set (fs : FileSystem) (paths : list string) :
  forall (self self' : LogProcessor) (es : list LogEntry),
    eps (args self) = true ->
    process_paths fs paths self = (Ret tt, self') ->
    (earliest_timestamp self = None <-> es = []) ->
    (latest_timestamp self = None <-> es = []) ->
    let es' := (es ++ records_of_inputs fs paths)%list in
    (earliest_timestamp self' = None <-> es' = [])
    /\ (latest_timestamp self' = None <-> es' = []).
Proof.
  induction paths as [|path rest IH]; intros self self' es He H J1 J2; cbv zeta.
  - injection H as <-. cbn [records_of_inputs]. rewrite app_nil_r. auto.
  - cbn [process_paths records_of_inputs] in H |- *.
    destruct (fs path) as [content|]; [|discriminate].
    unfold bind in H.
    destruct (process_file content self) as [[[]|x] s1] eqn:Hf; [|discriminate].
    destruct (process_file_ret _ _ _ Hf) as [Ha _].
    destruct (process_file_bounds_set content self s1 es He Hf J1 J2) as [K1 K2].
    rewrite app_assoc.
    apply (IH s1 self'); [rewrite Ha; exact He | exact H | exact K1 | exact K2].
Qed.

Lemma process_paths_TypeError (fs : FileSystem) (paths : list string) :
  forall self self' : LogProcessor,
    process_paths fs paths self = (Raise TypeError, self') ->
    exists (pre : list string) (path : string) (post : list string)
           (content : string) (s1 : LogProcessor),
      paths = (pre ++ path :: post)%list
      /\ fs path = Some content
      /\ process_paths fs pre self = (Ret tt, s1)
      /\ process_file content s1 = (Raise TypeError, self').
Proof.
  induction paths as [|p rest IH]; intros self self' H; [discriminate|].
  cbn [process_paths] in H. destruct (fs p) as [content|] eqn:F; [|discriminate].
  unfold bind in H. destruct (process_file content self) as [[[]|x] s1] eqn:P.
  - destruct (IH _ _ H) as [pre [path [post [c [s2 [-> [Hc [Hp Hf]]]]]]]].
    exists (p :: pre), path, post, c, s2. repeat split; try assumption.
    cbn [process_paths]. rewrite F. unfold bind. rewrite P. exact Hp.
  - injection H as -> ->. exists [], p, rest, content, self. auto.
Qed.

Lemma process_paths_Ret_or_TypeError (fs : FileSystem) (paths : list string) :
  forall self : LogProcessor,
    (forall path, In path paths ->
       exists content,
         fs path = Some content
         /\ forall line, In line (Py.readlines content) ->
                         forall x, parse_line line <> Raise x) ->
    fst (process_paths fs paths self) = Ret tt
    \/ fst (process_paths fs paths self) = Raise TypeError.
Proof.
  induction paths as [|p rest IH]; intros self Hok; [left; reflexivity|].
  cbn [process_paths]. destruct (Hok p (or_introl eq_refl)) as [content [F Hlines]].
  rewrite F. unfold bind. rewrite process_file_eq, (scan_total _ _ _ Hlines).
  set (loc := fold_left _ _ _).
  destruct (merge loc self) as [[[]|x] s1] eqn:M.
  - apply IH. intros q Hq. apply Hok. right. exact Hq.
  - right. cbn [fst]. f_equal.
    assert (Hx : fst (merge loc self) = Raise x) by (rewrite M; reflexivity).
    apply merge_raise in Hx. tauto.
Qed.

(** With events per second requested, on input paths each of which is a
    file that opens and reads as a text, all of whose lines parse,
    [process_logs] on a fresh processor returns or raises [TypeError]; it
    raises [TypeError] exactly when some file without a valid record is
    listed after a valid record was seen.  (A path that exists without
    being such a file, a directory for one, is not covered.) *)
Theorem process_logs_TypeError_iff_empty_after_record (fs : FileSystem) (a : Args) :
  eps a = true ->
  (forall path, In path (input a) ->
     exists content,
       fs path = Some content
       /\ forall line, In line (Py.readlines content) ->
                       forall x, parse_line line <> Raise x) ->
  (fst (process_logs fs (init a)) = Ret tt
   \/ fst (process_logs fs (init a)) = Raise TypeError)
  /\ (fst (process_logs fs (init a)) = Raise TypeError <->
      exists (pre : list string) (path : string) (post : list string) (content : string),
        input a = (pre ++ path :: post)%list
        /\ fs path = Some content
        /\ records_of_inputs fs pre <> []
        /\ records (Py.readlines content) = []).
Proof.
  intros He Hok. unfold process_logs, bind, gets. cbn [init args].
  pose proof (process_paths_Ret_or_TypeError fs (input a) (init a) Hok) as Hkind.
  split; [exact Hkind|].
  assert (Hstep : forall (pre : list string) (content : string) (s1 : LogProcessor),
             process_paths fs pre (init a) = (Ret tt, s1) ->
             (fst (process_file content s1) = Raise TypeError <->
              (exists loc, scan a local_init (Py.readlines content) = Ret loc)
              /\ records_of_inputs fs pre <> []
              /\ records (Py.readlines content) = [])).
  { intros pre content s1 Hp.
    destruct (process_paths_ret _ _ _ _ Hp) as [Ha _]. cbn [init args] in Ha.
    destruct (process_paths_bounds_set fs pre (init a) s1 [] He Hp)
      as [J1 J2]; [split; reflexivity | split; reflexivity |].
    cbn [app] in J1, J2.
    rewrite process_file_eq, Ha.
    destruct (scan a local_init (Py.readlines content)) as [loc|x] eqn:Hs.
    - rewrite merge_raise_iff, Ha.
      destruct (scan_bounds_unset _ _ _ He Hs) as [U1 U2]. split.
      + intros [_ [[Hset Hl] | [Hset Hl]]].
        * split; [eauto|]. split; [intros E; apply Hset, J1, E | apply U1, Hl].
        * split; [eauto|]. split; [intros E; apply Hset, J2, E | apply U2, Hl].
      + intros [_ [Hne Hr]]. split; [exact He|]. left.
        split; [intros E; apply Hne, J1, E | apply U1, Hr].
    - cbn [fst]. split.
      + intros H. injection H as ->.
        pose proof (scan_raise_ValueError _ _ _ _ Hs). discriminate.
      + intros [[loc H] _]. discriminate. }
  split.
  - intros H.
    destruct (process_paths fs (input a) (init a)) as [o s'] eqn:Hp.
    cbn [fst] in H. subst o.
    destruct (process_paths_TypeError _ _ _ _ Hp)
      as [pre [path [post [content [s1 [Hin [F [Hpre Hf]]]]]]]].
    assert (Hf' : fst (process_file content s1) = Raise TypeError)
      by (rewrite Hf; reflexivity).
    apply (Hstep pre content s1 Hpre) in Hf'. destruct Hf' as [_ [Hne Hr]].
    exists pre, path, post, content. auto.
  - intros [pre [path [post [content [Hin [F [Hne Hr]]]]]]].
    destruct Hkind as [Hret | Hty]; [|exact Hty]. exfalso.
    rewrite Hin, process_paths_app in Hret.
    destruct (process_paths fs pre (init a)) as [[[]|x] s1] eqn:Hpre;
      [|discriminate].
    cbn [process_paths] in Hret. rewrite F in Hret. unfold bind in Hret.
    assert (Hty : fst (process_file content s1) = Raise TypeError).
    { apply (Hstep pre content s1 Hpre). split; [|auto].
      destruct (Hok path) as [c [Fc Hlines]];
        [rewrite Hin; apply in_or_app; right; left; reflexivity|].
      rewrite F in Fc. injection Fc as <-.
      rewrite (scan_total _ _ _ Hlines). eauto. }
    destruct (process_file content s1) as [[[]|x] s2]; cbn [fst] in Hty;
      discriminate.
Qed.

Lemma process_logs_TypeError_iff_empty_after_record_witness :
  fst (process_logs (Sample.two_files Sample.single_entry Sample.malformed)
         (init (Sample.args_eps ["b.log"; "a.log"]))) = Ret tt
  \/ fst (process_logs (Sample.two_files Sample.single_entry Sample.malformed)
            (init (Sample.args_eps ["b.log"; "a.log"]))) = Raise TypeError.
Proof.
  refine (proj1 (process_logs_TypeError_iff_empty_after_record
                   (Sample.two_files Sample.single_entry Sample.malformed)
                   (Sample.args_eps ["b.log"; "a.log"]) eq_refl _)).
  intros path [<- | [<- | []]].
  - exists Sample.malformed. split; [reflexivity|].
    intros line Hin x. vm_compute in Hin.
    destruct Hin as [<- | [<- | [<- | []]]]; vm_compute; discriminate.
  - exists Sample.single_entry. split; [reflexivity|].
    intros line Hin x. vm_compute in Hin.
    destruct Hin as [<- | []]; vm_compute; discriminate.
Defined.

(** ** The order of two files, with events per second *)

(** With events per second requested, a file whose lines all parse is
    processed without exception when it holds a valid record, or when no
    bound of the processor is set yet. *)
Lemma process_file_completes_with_eps (content : string) (self : LogProcessor) :
  eps (args self) = true ->
  (forall line, In line (Py.readlines content) -> forall x, parse_line line <> Raise x) ->
  records (Py.readlines content) <> []
  \/ (earliest_timestamp self = None /\ latest_timestamp self = None) ->
  exists self', process_file content self = (Ret tt, self').
Proof.
  intros He Hlines Hcase. rewrite process_file_eq.
  destruct (scan (args self) local_init (Py.readlines content)) as [loc|x] eqn:Hs.
  - destruct (merge loc self) as [[[]|x] s1] eqn:M; [eauto|]. exfalso.
    assert (Hx : fst (merge loc self) = Raise x) by (rewrite M; reflexivity).
    destruct (merge_raise _ _ _ Hx) as [-> _].
    apply merge_raise_iff in Hx. destruct Hx as [_ Hx].
    destruct (scan_bounds_unset _ _ _ He Hs) as [U1 U2].
    destruct Hcase as [Hne | [N1 N2]].
    + destruct Hx as [[_ Hl] | [_ Hl]]; [apply Hne, U1, Hl | apply Hne, U2, Hl].
    + destruct Hx as [[Hset _] | [Hset _]]; contradiction.
  - destruct (scan_raise _ _ _ _ Hs) as [line [Hin Hx]]. destruct (Hlines line Hin x Hx).
Qed.

Lemma process_two_paths (fs : FileSystem) (p q c d : string) (self : LogProcessor) :
  fs p = Some c ->
  fs q = Some d ->
  forall s1 s2 : LogProcessor,
    process_file c self = (Ret tt, s1) ->
    process_file d s1 = (Ret tt, s2) ->
    process_paths fs [p; q] self = (Ret tt, s2).
Proof.
  intros Hp Hq s1 s2 H1 H2. cbn [process_paths]. rewrite Hp, Hq. unfold bind.
  rewrite H1, H2. reflexivity.
Qed.

(** With events per second requested, two existing files whose lines all
    parse, that hold a valid record each and no NaN timestamp, are
    processed to completion in either order, and the two orders agree on
    the entry count, on the byte total and on the count of every address;
    their bounds are set and agree as numbers: neither earliest bound is
    below the other, and neither latest bound either. *)
Theorem two_files_commute_with_eps
    (fs : FileSystem) (a : Args) (pa pb ca cb : string) :
  eps a = true ->
  fs pa = Some ca ->
  fs pb = Some cb ->
  (forall line, In line (Py.readlines ca) -> forall x, parse_line line <> Raise x) ->
  (forall line, In line (Py.readlines cb) -> forall x, parse_line line <> Raise x) ->
  records (Py.readlines ca) <> [] ->
  records (Py.readlines cb) <> [] ->
  (forall e, In e (records (Py.readlines ca) ++ records (Py.readlines cb)) ->
             not_nan (timestamp e) = true) ->
  let ab := process_paths fs [pa; pb] (init a) in
  let ba := process_paths fs [pb; pa] (init a) in
  fst ab = Ret tt /\ fst ba = Ret tt
  /\ entries_count (snd ab) = entries_count (snd ba)
  /\ total_bytes (snd ab) = total_bytes (snd ba)
  /\ (forall k : string,
        Py.counter_get (ip_counter (snd ab)) k = Py.counter_get (ip_counter (snd ba)) k)
  /\ exists e1 e2 l1 l2 : Py.binary64,
       earliest_timestamp (snd ab) = Some e1
       /\ earliest_timestamp (snd ba) = Some e2
       /\ latest_timestamp (snd ab) = Some l1
       /\ latest_timestamp (snd ba) = Some l2
       /\ Py.flt e1 e2 = false /\ Py.flt e2 e1 = false
       /\ Py.flt l1 l2 = false /\ Py.flt l2 l1 = false.
Proof.
  intros He Ha Hb La Lb Na Nb Hnan. cbv zeta.
  (* both orders complete *)
  destruct (process_file_completes_with_eps ca (init a) He La (or_introl Na)) as [sa Fa].
  destruct (process_file_ret _ _ _ Fa) as [Aa _]. cbn [init args] in Aa.
  destruct (process_file_completes_with_eps cb sa) as [sab Fab];
    [rewrite Aa; exact He | exact Lb | left; exact Nb |].
  destruct (process_file_completes_with_eps cb (init a) He Lb (or_introl Nb)) as [sb Fb].
  destruct (process_file_ret _ _ _ Fb) as [Ab _]. cbn [init args] in Ab.
  destruct (process_file_completes_with_eps ca sb) as [sba Fba];
    [rewrite Ab; exact He | exact La | left; exact Na |].
  pose proof (process_two_paths fs pa pb ca cb (init a) Ha Hb sa sab Fa Fab) as Pab.
  pose proof (process_two_paths fs pb pa cb ca (init a) Hb Ha sb sba Fb Fba) as Pba.
  rewrite Pab, Pba. cbn [fst snd].
  assert (Rab : records_of_inputs fs [pa; pb]
                = (records (Py.readlines ca) ++ records (Py.readlines cb))%list)
    by (cbn [records_of_inputs]; rewrite Ha, Hb, app_nil_r; reflexivity).
  assert (Rba : records_of_inputs fs [pb; pa]
                = (records (Py.readlines cb) ++ records (Py.readlines ca))%list)
    by (cbn [records_of_inputs]; rewrite Ha, Hb, app_nil_r; reflexivity).
  (* counts *)
  destruct (process_paths_ret _ _ _ _ Pab) as [_ [Eab Bab]].
  destruct (process_paths_ret _ _ _ _ Pba) as [_ [Eba Bba]].
  rewrite Rab in Eab, Bab. rewrite Rba in Eba, Bba.
  rewrite length_app in Eab, Eba. rewrite sum_bytes_app in Bab, Bba.
  cbn [init args entries_count total_bytes] in Eab, Eba, Bab, Bba.
  assert (Hn0 : NoDup (map fst (ip_counter (init a)))) by constructor.
  assert (Hp0 : Forall (fun item => 1 <= snd item) (ip_counter (init a)))
    by constructor.
  destruct (process_paths_counter _ _ _ _ Pab Hn0 Hp0) as [_ [_ [Gab _]]].
  destruct (process_paths_counter _ _ _ _ Pba Hn0 Hp0) as [_ [_ [Gba _]]].
  rewrite Rab in Gab. rewrite Rba in Gba.
  (* bounds *)
  assert (Hnan_ab : forall t,
             In t ([] ++ map timestamp (records_of_inputs fs [pa; pb])) ->
             not_nan t = true).
  { intros t Ht. cbn [app] in Ht. rewrite Rab in Ht. apply in_map_iff in Ht.
    destruct Ht as [e [<- Hin]]. apply Hnan, Hin. }
  assert (Hnan_ba : forall t,
             In t ([] ++ map timestamp (records_of_inputs fs [pb; pa])) ->
             not_nan t = true).
  { intros t Ht. cbn [app] in Ht. rewrite Rba in Ht. apply in_map_iff in Ht.
    destruct Ht as [e [<- Hin]]. apply Hnan. apply in_app_or in Hin.
    apply in_or_app. tauto. }
  destruct (process_paths_bounds fs [pa; pb] (init a) sab [] He Pab Hnan_ab
              eq_refl eq_refl) as [X1 X2].
  destruct (process_paths_bounds fs [pb; pa] (init a) sba [] He Pba Hnan_ba
              eq_refl eq_refl) as [Y1 Y2].
  cbn [app] in X1, X2, Y1, Y2. rewrite Rab in X1, X2. rewrite Rba in Y1, Y2.
  assert (Hperm : forall t,
             In t (map timestamp (records (Py.readlines ca) ++ records (Py.readlines cb)))
             <-> In t (map timestamp
                         (records (Py.readlines cb) ++ records (Py.readlines ca)))).
  { intros t. rewrite !map_app, !in_app_iff. tauto. }
  assert (Hne : map timestamp (records (Py.readlines ca) ++ records (Py.readlines cb))
                <> []).
  { destruct (records (Py.readlines ca)); [contradiction | discriminate]. }
  assert (Hne' : map timestamp (records (Py.readlines cb) ++ records (Py.readlines ca))
                 <> []).
  { destruct (records (Py.readlines cb)); [contradiction | discriminate]. }
  unfold extreme_of in X1, X2, Y1, Y2.
  destruct (earliest_timestamp sab) as [e1|]; [|contradiction].
  destruct (earliest_timestamp sba) as [e2|]; [|contradiction].
  destruct (latest_timestamp sab) as [l1|]; [|contradiction].
  destruct (latest_timestamp sba) as [l2|]; [|contradiction].
  destruct X1 as [I1 A1], X2 as [I2 A2], Y1 as [J1 B1], Y2 as [J2 B2].
  split; [reflexivity|]. split; [reflexivity|].
  split; [lia|]. split; [destruct (bytes a); lia|].
  split.
  - intros k. rewrite Gab, Gba, !count_ip_app.
    destruct (mfip (args (init a)) || lfip (args (init a))); lia.
  - exists e1, e2, l1, l2. do 4 (split; [reflexivity|]).
    split; [apply B1, Hperm, I1|]. split; [apply A1, Hperm, J1|].
    split; [apply (A2 l2), Hperm, J2 | apply (B2 l1), Hperm, I2].
Qed.

Lemma two_files_commute_with_eps_witness :
  let fs := Sample.two_files Sample.three_lines Sample.two_addresses in
  let a := Sample.args_scenario [] in
  fst (process_paths fs ["a.log"; "b.log"] (init a)) = Ret tt.
Proof.
  refine (proj1 (two_files_commute_with_eps
                   (Sample.two_files Sample.three_lines Sample.two_addresses)
                   (Sample.args_scenario []) "a.log" "b.log"
                   Sample.three_lines Sample.two_addresses
                   eq_refl eq_refl eq_refl _ _ _ _ _)).
  - intros line Hin x. vm_compute in Hin.
    destruct Hin as [<- | [<- | [<- | []]]]; vm_compute; discriminate.
  - intros line Hin x. vm_compute in Hin.
    destruct Hin as [<- | [<- | []]]; vm_compute; discriminate.
  - vm_compute. discriminate.
  - vm_compute. discriminate.
  - intros e Hin. vm_compute in Hin.
    destruct Hin as [<- | [<- | [<- | [<- | [<- | []]]]]]; reflexivity.
Defined.

(** ** Runs without a valid record *)

(** Inputs that are all files read as text and hold no valid record: either
    every line parses, and a fresh processor is left fresh, or some line
    has 10 fields of which a number does not parse, and processing raises
    [ValueError] at the first such file. *)
Lemma process_paths_zero_records (fs : FileSystem) (a : Args) (paths : list string) :
  (forall path, In path paths -> exists content, fs path = Some content) ->
  records_of_inputs fs paths = [] ->
  (process_paths fs paths (init a) = (Ret tt, init a)
   /\ forall path content line,
        In path paths -> fs path = Some content ->
        In line (Py.readlines content) -> forall x, parse_line line <> Raise x)
  \/ (process_paths fs paths (init a) = (Raise ValueError, init a)
      /\ exists path content line,
           In path paths /\ fs path = Some content
           /\ In line (Py.readlines content) /\ parse_line line = Raise ValueError).
Proof.
  induction paths as [|p rest IH]; intros Hex Hrec.
  - left. split; [reflexivity | intros path content line []].
  - destruct (Hex p (or_introl eq_refl)) as [content F].
    cbn [records_of_inputs] in Hrec. rewrite F in Hrec.
    apply app_eq_nil in Hrec. destruct Hrec as [Hr Hrest].
    cbn [process_paths]. rewrite F. unfold bind. rewrite process_file_eq.
    cbn [init args].
    destruct (scan a local_init (Py.readlines content)) as [loc|x] eqn:Hs.
    + pose proof (scan_ret _ _ _ _ Hs) as Hloc. rewrite Hr in Hloc.
      cbn [fold_left] in Hloc. subst loc.
      change (merge local_init
                {| args := a; ip_counter := []; earliest_timestamp := None;
                   latest_timestamp := None; entries_count := 0; total_bytes := 0 |})
        with (merge local_init (init a)).
      rewrite merge_nothing_into_fresh.
      destruct IH as [[Hp Hok] | [Hp [path [c [line [Hin [Fc [Hl Hx]]]]]]]];
        [intros q Hq; apply Hex; right; exact Hq | exact Hrest | |].
      * left. split; [exact Hp|].
        intros path c line [<- | Hin] Fc Hl x.
        -- rewrite F in Fc. injection Fc as <-.
           exact (scan_ret_no_raise _ _ _ _ Hs line Hl x).
        -- exact (Hok path c line Hin Fc Hl x).
      * right. split; [exact Hp|].
        exists path, c, line. split; [right; exact Hin | auto].
    + right. pose proof (scan_raise_ValueError _ _ _ _ Hs). subst x.
      split; [reflexivity|].
      destruct (scan_raise _ _ _ _ Hs) as [line [Hl Hx]].
      exists p, content, line. split; [left; reflexivity | auto].
Qed.

(** C8, as the code has it.  With events per second requested, let every
    input path be a file that is read as a text, and let the inputs hold no
    valid record.  If no line has 10 fields of which a number does not
    parse, [process_logs] returns and [get_results] raises
    [NoEntriesFoundError], so the run ends in [NoEntriesFoundError]; if
    some line does, the run ends in [ValueError], raised by the parser
    before [get_results] is called.  The run ends in one of the two.  And
    [get_results] raises [NoEntriesFoundError] on every state whose entry
    count is zero. *)
Theorem zero_records_end_in_NoEntriesFoundError_or_ValueError
    (fs : FileSystem) (a : Args) :
  eps a = true ->
  (forall path, In path (input a) -> exists content, fs path = Some content) ->
  records_of_inputs fs (input a) = [] ->
  ((forall path content line,
      In path (input a) -> fs path = Some content ->
      In line (Py.readlines content) -> forall x, parse_line line <> Raise x) ->
   exists self,
     process_logs fs (init a) = (Ret tt, self)
     /\ get_results self = (Raise NoEntriesFoundError, self)
     /\ fst (run fs a) = Raise NoEntriesFoundError)
  /\ ((exists path content line,
         In path (input a) /\ fs path = Some content
         /\ In line (Py.readlines content) /\ parse_line line = Raise ValueError) ->
      fst (process_logs fs (init a)) = Raise ValueError
      /\ fst (run fs a) = Raise ValueError)
  /\ (fst (run fs a) = Raise NoEntriesFoundError \/ fst (run fs a) = Raise ValueError)
  /\ (forall self : LogProcessor,
        args self = a -> entries_count self = 0 ->
        get_results self = (Raise NoEntriesFoundError, self)).
Proof.
  intros He Hex Hrec.
  assert (Hget : get_results (init a) = (Raise NoEntriesFoundError, init a))
    by (apply get_results_no_entries; [exact He | reflexivity]).
  assert (Hplogs : process_logs fs (init a) = process_paths fs (input a) (init a))
    by reflexivity.
  destruct (process_paths_zero_records fs a (input a) Hex Hrec)
    as [[Hp Hok] | [Hp [path [content [line [Hin [F [Hl Hx]]]]]]]].
  - assert (Hrun : fst (run fs a) = Raise NoEntriesFoundError)
      by (unfold run, bind; rewrite Hplogs, Hp, Hget; reflexivity).
    split; [|split; [|split]].
    + intros _. exists (init a). rewrite Hplogs. auto.
    + intros [p [c [l [Hi [Fc [Hll Hxx]]]]]]. destruct (Hok p c l Hi Fc Hll _ Hxx).
    + left. exact Hrun.
    + intros self Ha Hn. apply get_results_no_entries; [rewrite Ha; exact He | exact Hn].
  - assert (Hrun : fst (run fs a) = Raise ValueError)
      by (unfold run, bind; rewrite Hplogs, Hp; reflexivity).
    split; [|split; [|split]].
    + intros Hok. destruct (Hok path content line Hin F Hl _ Hx).
    + intros _. rewrite Hplogs, Hp. auto.
    + right. exact Hrun.
    + intros self Ha Hn. apply get_results_no_entries; [rewrite Ha; exact He | exact Hn].
Qed.

Lemma zero_records_end_in_NoEntriesFoundError_or_ValueError_witness :
  fst (run (Sample.one_file Sample.malformed) (Sample.args_eps ["access.log"]))
  = Raise NoEntriesFoundError
  \/ fst (run (Sample.one_file Sample.malformed) (Sample.args_eps ["access.log"]))
     = Raise ValueError.
Proof.
  refine (proj1 (proj2 (proj2 (zero_records_end_in_NoEntriesFoundError_or_ValueError
                                 (Sample.one_file Sample.malformed)
                                 (Sample.args_eps ["access.log"]) eq_refl _ _)))).
  - intros path [<- | []]. exists Sample.malformed. reflexivity.
  - vm_compute. reflexivity.
Defined.

(** C8, as stated, fails.  With events per second requested, a file whose
    only line has 10 fields and no float in the first holds no valid
    record, and the run ends in [ValueError], not in
    [NoEntriesFoundError]. *)
Lemma zero_records_can_end_in_ValueError :
  eps (Sample.args_eps ["access.log"]) = true
  /\ records_of_inputs (Sample.one_file Sample.bad_timestamp) ["access.log"] = []
  /\ fst (process_logs (Sample.one_file Sample.bad_timestamp)
            (init (Sample.args_eps ["access.log"]))) = Raise ValueError
  /\ fst (run (Sample.one_file Sample.bad_timestamp) (Sample.args_eps ["access.log"]))
     = Raise ValueError.
Proof.
  split; [reflexivity|]. do 2 (split; [vm_compute; reflexivity|]).
  vm_compute. reflexivity.
Qed.
